(** * A Telegram front-end for a hosted completion endpoint (bot.mjs)

    Shallow embedding of the session store, the prompt builder, the
    completion gateway and the interaction controller of [bot.mjs], and of the
    earlier single-answer bot that ships next to it, followed by the
    properties of the specification.

    Modelling conventions.
    - A JavaScript string is the list of its UTF-16 code units; [length],
      [slice] and [startsWith] are then the list operations.  Literals are
      written as UTF-8 text and decoded by [js].
    - A JavaScript number is an exact rational.  The program only stores
      integers read from digit strings and the decimal literals 0, 0.2, 0.6,
      0.7 and 0.9, compares them with [===] and prints them; on these the
      rationals and the doubles agree (integers below 2^53).
    - The three process-wide [Map]s are finite maps keyed by the chat id.
    - A handler is a computation in a small monad that threads the session
      store, may throw, and logs every outbound operation in order. *)

From Stdlib Require Import ZArith NArith QArith Qround Lqa List Ascii String Bool Lia.
From stdpp Require Import base option list gmap.

Local Open Scope N_scope.

(** ** Strings *)

Definition jsstring := list N.

Module Utf.

(** Code units of one code point: itself in the basic plane, a surrogate
    pair above it. *)
Definition units (cp : N) : list N :=
  if cp <? 65536 then [cp]
  else [55296 + (cp - 65536) / 1024; 56320 + (cp - 65536) mod 1024].

(** UTF-8 decoder: [need] continuation bytes are still expected for the
    code point accumulated in [acc]. *)
Fixpoint decode (s : string) (need : nat) (acc : N) : list N :=
  match s with
  | EmptyString => []
  | String c r =>
      let b := N_of_ascii c in
      match need with
      | O =>
          if b <? 128 then b :: decode r 0 0
          else if b <? 224 then decode r 1 (b - 192)
          else if b <? 240 then decode r 2 (b - 224)
          else decode r 3 (b - 240)
      | S O => units (acc * 64 + (b - 128)) ++ decode r 0 0
      | S k => decode r k (acc * 64 + (b - 128))
      end
  end.

End Utf.

Definition js (s : string) : jsstring := Utf.decode s 0 0.

Definition LF : jsstring := [10].
Definition QUOTE : jsstring := [34].

(** [String.prototype.trim]: white space and line terminators of ECMAScript. *)
Definition is_space (c : N) : bool :=
  (c =? 9) || (c =? 10) || (c =? 11) || (c =? 12) || (c =? 13) || (c =? 32)
  || (c =? 160) || (c =? 5760) || ((8192 <=? c) && (c <=? 8202))
  || (c =? 8232) || (c =? 8233) || (c =? 8239) || (c =? 8287)
  || (c =? 12288) || (c =? 65279).

Fixpoint trimStart (s : jsstring) : jsstring :=
  match s with
  | [] => []
  | c :: r => if is_space c then trimStart r else s
  end.

Definition trimEnd (s : jsstring) : jsstring := rev (trimStart (rev s)).

Definition trim (s : jsstring) : jsstring := trimEnd (trimStart s).

Definition startsWith (s p : jsstring) : bool :=
  bool_decide (firstn (length p) s = p).

Definition str_eqb (a b : jsstring) : bool := bool_decide (a = b).

(** [Array.prototype.join]. *)
Fixpoint join (sep : jsstring) (parts : list jsstring) : jsstring :=
  match parts with
  | [] => []
  | [p] => p
  | p :: rest => p ++ sep ++ join sep rest
  end.

(** ** Numbers *)

Definition number := Q.

Definition num (z : Z) : number := inject_Z z.

(** [a === b] on numbers. *)
Definition num_eqb (a b : number) : bool := Qeq_bool a b.

Fixpoint uint_units (d : Decimal.uint) : jsstring :=
  match d with
  | Decimal.Nil => []
  | Decimal.D0 r => 48 :: uint_units r
  | Decimal.D1 r => 49 :: uint_units r
  | Decimal.D2 r => 50 :: uint_units r
  | Decimal.D3 r => 51 :: uint_units r
  | Decimal.D4 r => 52 :: uint_units r
  | Decimal.D5 r => 53 :: uint_units r
  | Decimal.D6 r => 54 :: uint_units r
  | Decimal.D7 r => 55 :: uint_units r
  | Decimal.D8 r => 56 :: uint_units r
  | Decimal.D9 r => 57 :: uint_units r
  end.

(** Decimal numeral of a natural number. *)
Definition decimal (n : N) : jsstring := uint_units (N.to_uint n).

(** Digits after the decimal point of [r/d], for [r < d]. *)
Fixpoint fraction (fuel : nat) (d r : N) : jsstring :=
  match fuel with
  | O => []
  | S f => if r =? 0 then []
           else (48 + 10 * r / d) :: fraction f d (10 * r mod d)
  end.

(** [Number.prototype.toString] on the finite decimals the program prints. *)
Definition Number_toString (q : number) : jsstring :=
  let n := Z.abs_N (Qnum q) in
  let d := Npos (Qden q) in
  (if (Qnum q <? 0)%Z then js "-" else [])
  ++ decimal (n / d)
  ++ (if n mod d =? 0 then [] else js "." ++ fraction 17 d (n mod d)).

(** [Math.round]: the nearest integer, a tie going up. *)
Definition Math_round (q : number) : Z := Qfloor (q + (1 # 2))%Q.

Definition is_digit (c : N) : bool := (48 <=? c) && (c <=? 57).

(** [Number(digits)] for a string of decimal digits, read from the left. *)
Fixpoint digits_value (acc : N) (s : jsstring) : N :=
  match s with
  | [] => acc
  | c :: r => digits_value (10 * acc + (c - 48)) r
  end.

Definition Number_of_digits (s : jsstring) : number :=
  num (Z.of_N (digits_value 0 s)).

(** ** Constants of the program *)

Definition MODEL : jsstring := js "llama-3.3-70b-versatile".
Definition DEFAULT_SYSTEM : jsstring := js "Ты полезный ассистент. Отвечай по делу.".
Definition STOP_MARKER : jsstring := js "<END>".

(** ** Data model *)

Record Message := { role : jsstring; content : jsstring }.

Definition system_msg (c : jsstring) : Message := {| role := js "system"; content := c |}.
Definition user_msg (c : jsstring) : Message := {| role := js "user"; content := c |}.
Definition assistant_msg (c : jsstring) : Message := {| role := js "assistant"; content := c |}.

Record Settings := {
  max_tokens : number;
  format : jsstring;
  temperature : number;
  frequency_penalty : number;
  presence_penalty : number;
  use_stop : bool
}.

Definition newDefaultSettings : Settings := {|
  max_tokens := num 128;
  format := js "bullets";
  temperature := 7 # 10;
  frequency_penalty := num 0;
  presence_penalty := num 0;
  use_stop := true
|}.

(** The three maps: [dialogs], [settingsByChat], [settingsMsgIdByChat]. *)
Record Store := {
  dialogs : gmap Z (list Message);
  settingsByChat : gmap Z Settings;
  settingsMsgIdByChat : gmap Z N
}.

Definition empty_store : Store :=
  {| dialogs := ∅; settingsByChat := ∅; settingsMsgIdByChat := ∅ |}.

(** ** Session store *)

Definition ensureSession (chatId : Z) (st : Store) : Store :=
  let d := match dialogs st !! chatId with
           | Some _ => dialogs st
           | None => <[chatId := [system_msg DEFAULT_SYSTEM]]> (dialogs st)
           end in
  let s := match settingsByChat st !! chatId with
           | Some _ => settingsByChat st
           | None => <[chatId := newDefaultSettings]> (settingsByChat st)
           end in
  {| dialogs := d; settingsByChat := s;
     settingsMsgIdByChat := settingsMsgIdByChat st |}.

Definition resetSession (chatId : Z) (st : Store) : Store :=
  ensureSession chatId
    {| dialogs := delete chatId (dialogs st);
       settingsByChat := delete chatId (settingsByChat st);
       settingsMsgIdByChat := delete chatId (settingsMsgIdByChat st) |}.

(** [getMessages] and [getSettings] ensure the session and read it; the
    default stands for the [undefined] that an ensured map never yields. *)
Definition getMessages (chatId : Z) (st : Store) : Store * list Message :=
  let st' := ensureSession chatId st in
  (st', default [] (dialogs st' !! chatId)).

Definition getSettings (chatId : Z) (st : Store) : Store * Settings :=
  let st' := ensureSession chatId st in
  (st', default newDefaultSettings (settingsByChat st' !! chatId)).

(** The marker appended to a shortened reply. *)
Definition TRUNCATION_MARKER : jsstring := LF ++ LF ++ js "…(обрезано)".

(** [text.slice(0, 3500)] is [firstn 3500 text]. *)
Definition safeTelegramText (text : jsstring) : jsstring :=
  if (3500 <? length text)%nat
  then firstn 3500 text ++ TRUNCATION_MARKER
  else text.

Definition prettySettings (s : Settings) : jsstring :=
  let fmt := if str_eqb (format s) (js "json") then js "JSON" else js "Список" in
  let stop := if use_stop s then js "ON (" ++ STOP_MARKER ++ js ")" else js "OFF" in
  js "max_tokens: " ++ Number_toString (max_tokens s)
  ++ js " | format: " ++ fmt
  ++ js " | temp: " ++ Number_toString (temperature s)
  ++ js " | freq: " ++ Number_toString (frequency_penalty s)
  ++ js " | pres: " ++ Number_toString (presence_penalty s)
  ++ js " | stop: " ++ stop.

(** ** Keyboards *)

Record Button := { label : jsstring; callback_data : jsstring }.

Definition Keyboard := list (list Button).

Definition button (text data : jsstring) : Button :=
  {| label := text; callback_data := data |}.

Definition labelRow (text : jsstring) : list Button :=
  [button (js "— " ++ text ++ js " —") (js "noop")].

(** A choice button, marked with a green square when it is the current one. *)
Definition choice (selected : bool) (text data : string) : Button :=
  button (if selected then js "🟩 " ++ js text else js text) (js data).

Definition controlsKeyboardOf (s : Settings) : Keyboard :=
  let lenRow := [
    choice (num_eqb (max_tokens s) (num 64)) "64" "len_64";
    choice (num_eqb (max_tokens s) (num 128)) "128" "len_128";
    choice (num_eqb (max_tokens s) (num 256)) "256" "len_256";
    choice (num_eqb (max_tokens s) (num 512)) "512" "len_512" ] in
  let formatRow := [
    choice (str_eqb (format s) (js "bullets")) "Список" "fmt_bullets";
    choice (str_eqb (format s) (js "json")) "JSON" "fmt_json" ] in
  let tempRow := [
    choice (num_eqb (temperature s) (2 # 10)) "0.2" "temp_0.2";
    choice (num_eqb (temperature s) (9 # 10)) "0.9" "temp_0.9" ] in
  let freqRow := [
    choice (num_eqb (frequency_penalty s) (num 0)) "0" "freq_0";
    choice (num_eqb (frequency_penalty s) (6 # 10)) "0.6" "freq_0.6" ] in
  let presRow := [
    choice (num_eqb (presence_penalty s) (num 0)) "0" "pres_0";
    choice (num_eqb (presence_penalty s) (6 # 10)) "0.6" "pres_0.6" ] in
  let stopRow := [
    choice (use_stop s) "ON" "stop_on";
    choice (negb (use_stop s)) "OFF" "stop_off" ] in
  [ labelRow (js "Количество токенов на ответ (max_tokens)"); lenRow;
    labelRow (js "Формат вывода"); formatRow;
    labelRow (js "Случайность (temperature)"); tempRow;
    labelRow (js "Штраф повторов слов (frequency_penalty)"); freqRow;
    labelRow (js "Штраф повторов тем (presence_penalty)"); presRow;
    labelRow (js "Условие завершения (stop)"); stopRow;
    [button (js "⬅️ Назад") (js "back_to_prompt")] ].

Definition controlsKeyboard (chatId : Z) (st : Store) : Store * Keyboard :=
  let '(st', s) := getSettings chatId st in (st', controlsKeyboardOf s).

Definition afterAnswerKeyboard : Keyboard :=
  [ [ button (js "🆕 Новый вопрос") (js "new_question");
      button (js "⚙️ Изменить настройки") (js "open_settings") ] ].

Definition startKeyboard : Keyboard :=
  [ [ button (js "▶️ Start") (js "do_start") ] ].

(** ** Prompt builder *)

Definition formatInstruction (s : Settings) : jsstring :=
  if str_eqb (format s) (js "json")
  then js "Формат ответа: строго JSON без markdown. Поля: {"
       ++ QUOTE ++ js "answer" ++ QUOTE ++ js ": string, "
       ++ QUOTE ++ js "bullets" ++ QUOTE ++ js ": string[]}."
  else js "Формат ответа: список из 3–6 пунктов. Каждый пункт короткий.".

(** [Math.min(120, Math.round(s.max_tokens * 0.75))]. *)
Definition lengthWords (s : Settings) : Z :=
  Z.min 120 (Math_round (max_tokens s * (75 # 100))%Q).

(** A template slot holding an integer. *)
Definition show_int (z : Z) : jsstring := Number_toString (num z).

Definition lengthInstruction (s : Settings) : jsstring :=
  js "Ограничение длины: уложись примерно в " ++ show_int (lengthWords s)
  ++ js " слов максимум.".

Definition stopInstruction (s : Settings) : jsstring :=
  if use_stop s
  then js "Условие завершения: в конце выведи отдельной строкой "
       ++ STOP_MARKER ++ js "."
  else js "Условие завершения: закончи сразу после выполнения требований.".

Definition buildConstrainedUserPrompt (userText : jsstring) (s : Settings) : jsstring :=
  join LF [
    trim userText;
    [];
    js "Требования к ответу:";
    js "- " ++ formatInstruction s;
    js "- " ++ lengthInstruction s;
    js "- " ++ stopInstruction s ].

(** ** Completion gateway *)

(** Generation parameters; [None] is JavaScript's [undefined]. *)
Record GenerationParams := {
  p_temperature : option number;
  p_max_tokens : option number;
  p_frequency_penalty : option number;
  p_presence_penalty : option number;
  p_stop : option (list jsstring)
}.

Inductive JValue :=
| JUndefined
| JString (s : jsstring)
| JNumber (q : number)
| JMessages (l : list Message)
| JStrings (l : list jsstring).

(** An object literal, as its own properties in insertion order. *)
Definition Payload := list (string * JValue).

Definition is_undefined (v : JValue) : bool :=
  match v with JUndefined => true | _ => false end.

Definition field {A} (inj : A -> JValue) (o : option A) : JValue :=
  match o with Some a => inj a | None => JUndefined end.

(** The object literal of [callLLM], before the [undefined] entries go. *)
Definition rawPayload (messages : list Message) (params : GenerationParams) : Payload :=
  [ ("model"%string, JString MODEL);
    ("messages"%string, JMessages messages);
    ("temperature"%string, field JNumber (p_temperature params));
    ("max_tokens"%string, field JNumber (p_max_tokens params));
    ("frequency_penalty"%string, field JNumber (p_frequency_penalty params));
    ("presence_penalty"%string, field JNumber (p_presence_penalty params));
    ("stop"%string, field JStrings (p_stop params)) ].

(** [Object.keys(payload).forEach(k => payload[k] === undefined && delete payload[k])]. *)
Definition stripUndefined (p : Payload) : Payload :=
  List.filter (fun kv => negb (is_undefined (snd kv))) p.

Definition requestPayload (messages : list Message) (params : GenerationParams) : Payload :=
  stripUndefined (rawPayload messages params).

(** What the provider does with one request: the promise is rejected, or it
    resolves with [choices[0].message.content] present or not. *)
Inductive Response :=
| Rejected
| Resolved (content : option jsstring).

Definition EMPTY_ANSWER : jsstring := js "(пустой ответ)".

Definition UNRESTRICTED_PARAMS : GenerationParams := {|
  p_temperature := Some (7 # 10);
  p_max_tokens := Some (num 800);
  p_frequency_penalty := Some (num 0);
  p_presence_penalty := Some (num 0);
  p_stop := None
|}.

(** The parameters of the constrained request (the object literal
    [constrainedParams] of the text handler). *)
Definition constrainedParams (s : Settings) : GenerationParams := {|
  p_temperature := Some (temperature s);
  p_max_tokens := Some (max_tokens s);
  p_frequency_penalty := Some (frequency_penalty s);
  p_presence_penalty := Some (presence_penalty s);
  p_stop := if use_stop s then Some [STOP_MARKER] else None
|}.

(** ** Outbound operations *)

Inductive Out :=
| reply (text : jsstring) (keyboard : option Keyboard)
| editMessageText (text : jsstring) (keyboard : Keyboard) (ok : bool)
| telegram_editMessageText (chatId : Z) (messageId : N)
    (text : jsstring) (keyboard : Keyboard) (ok : bool)
| answerCbQuery (text : jsstring)
| sendChatAction (action : jsstring)
| completions_create (payload : Payload)
| console_error.

(** ** The handler monad *)

Inductive Outcome (A : Type) :=
| Returned (a : A)
| Thrown.
Arguments Returned {A} a.
Arguments Thrown {A}.

(** A computation over a store of type [S]: it returns or throws, leaves a
    store, and logs the outbound operations it performed. *)
Definition Eff (S A : Type) : Type := S -> Outcome A * S * list Out.

Definition ret {S A} (a : A) : Eff S A := fun st => (Returned a, st, []).

Definition bind {S A B} (m : Eff S A) (f : A -> Eff S B) : Eff S B :=
  fun st =>
    match m st with
    | (Returned a, st1, o1) =>
        let '(r, st2, o2) := f a st1 in (r, st2, o1 ++ o2)
    | (Thrown, st1, o1) => (Thrown, st1, o1)
    end.

Declare Scope handler_scope.
Delimit Scope handler_scope with handler.
Notation "x <- m ;; k" := (bind m (fun x => k))
  (at level 100, m at next level, right associativity) : handler_scope.
Notation "m ;; k" := (bind m (fun _ => k))
  (at level 100, right associativity) : handler_scope.
Local Open Scope handler_scope.

Definition throw {S A} : Eff S A := fun st => (Thrown, st, []).

Definition emit {S} (o : Out) : Eff S unit := fun st => (Returned tt, st, [o]).

Definition gets {S A} (f : S -> A) : Eff S A := fun st => (Returned (f st), st, []).

Definition modify {S} (f : S -> S) : Eff S unit := fun st => (Returned tt, f st, []).

(** A store operation that also returns a value. *)
Definition lift {S A} (f : S -> S * A) : Eff S A :=
  fun st => let '(st', a) := f st in (Returned a, st', []).

(** [try { body } catch { handler }]: what [body] did before it threw stays. *)
Definition try_catch {S A} (body handler : Eff S A) : Eff S A :=
  fun st =>
    match body st with
    | (Returned a, st1, o1) => (Returned a, st1, o1)
    | (Thrown, st1, o1) =>
        let '(r, st2, o2) := handler st1 in (r, st2, o1 ++ o2)
    end.

(** The handlers of [bot.mjs] run over its three maps. *)
Abbreviation M := (Eff Store).

(** [res.choices?.[0]?.message?.content ?? placeholder]. *)
Definition extract (content : option jsstring) : jsstring :=
  default EMPTY_ANSWER content.

(** [callLLM]: the request goes out; a rejection is thrown on to the caller,
    a resolved response yields its text. *)
Definition callLLM {S} (answer : Response) (messages : list Message)
    (params : GenerationParams) : Eff S jsstring :=
  emit (completions_create (requestPayload messages params)) ;;
  match answer with
  | Rejected => throw
  | Resolved content => ret (extract content)
  end.

(** ** Interaction controller *)

Inductive UpdateType := message_update | callback_query.

(** The part of Telegraf's context the handlers read. *)
Record Ctx := {
  chat_id : Z;
  updateType : UpdateType;
  message_text : option jsstring;
  callback_message_id : option N
}.

(** What the outside answers while one event is handled: the provider's
    answer to the constrained and to the unrestricted request, whether the
    in-place edit and the edit by saved id go through, and the id of a newly
    sent settings message.  Plain sends are taken to succeed. *)
Record World := {
  constrained_response : Response;
  unrestricted_response : Response;
  edit_here_ok : bool;
  edit_by_id_ok : bool;
  sent_message_id : option N
}.

(** [if (id)] on a message id: [undefined] and [0] are falsy. *)
Definition truthy (id : option N) : bool :=
  match id with Some (Npos _) => true | _ => false end.

Definition START_TEXT : jsstring := js "Нажми Start, чтобы начать и увидеть настройки.".
Definition PROMPT_TEXT : jsstring :=
  js "Можешь задать вопрос. Я пришлю 2 ответа: (1) с ограничениями и (2) без ограничений.".
Definition APOLOGY_TEXT : jsstring :=
  js "Упс, ошибка при запросе к модели. Смотри лог в консоли.".

Definition showStartScreen : M unit := emit (reply START_TEXT (Some startKeyboard)).

Definition showPrompt : M unit := emit (reply PROMPT_TEXT (Some afterAnswerKeyboard)).

Definition controlsText (s : Settings) : jsstring :=
  js "⚙️ Настройки" ++ LF ++ prettySettings s ++ LF ++ LF
  ++ js "Нажимай кнопки ниже, чтобы менять параметры:".

Definition remember (chatId : Z) (id : option N) : M unit :=
  match id with
  | Some (Npos p) =>
      modify (fun st =>
        {| dialogs := dialogs st; settingsByChat := settingsByChat st;
           settingsMsgIdByChat := <[chatId := Npos p]> (settingsMsgIdByChat st) |})
  | _ => ret tt
  end.

Definition forget (chatId : Z) : M unit :=
  modify (fun st =>
    {| dialogs := dialogs st; settingsByChat := settingsByChat st;
       settingsMsgIdByChat := delete chatId (settingsMsgIdByChat st) |}).

(** The settings screen: edit the pressed message, else edit the saved one,
    else send a new one and save its id. *)
Definition showControls (w : World) (ctx : Ctx) : M unit :=
  let chatId := chat_id ctx in
  s <- lift (getSettings chatId) ;;
  let text := controlsText s in
  keyboard <- lift (controlsKeyboard chatId) ;;
  existingId <- gets (fun st => settingsMsgIdByChat st !! chatId) ;;
  let send_new :=
    emit (reply text (Some keyboard)) ;; remember chatId (sent_message_id w) in
  let edit_saved :=
    match existingId with
    | Some (Npos p) =>
        emit (telegram_editMessageText chatId (Npos p) text keyboard (edit_by_id_ok w)) ;;
        if edit_by_id_ok w then ret tt else (forget chatId ;; send_new)
    | _ => send_new
    end in
  match updateType ctx with
  | callback_query =>
      emit (editMessageText text keyboard (edit_here_ok w)) ;;
      if edit_here_ok w then remember chatId (callback_message_id ctx)
      else edit_saved
  | message_update => edit_saved
  end.

(** *** Commands *)

Definition on_start (w : World) (ctx : Ctx) : M unit :=
  modify (resetSession (chat_id ctx)) ;;
  emit (reply (js "Привет! Это бот для экспериментов с контролем ответа." ++ LF
               ++ js "Команды: /reset, /controls") None) ;;
  showControls w ctx ;;
  showPrompt.

Definition on_controls (w : World) (ctx : Ctx) : M unit :=
  modify (ensureSession (chat_id ctx)) ;;
  showControls w ctx.

Definition on_reset (w : World) (ctx : Ctx) : M unit :=
  modify (resetSession (chat_id ctx)) ;;
  emit (reply (js "Ок, контекст и настройки сброшены.") None) ;;
  showControls w ctx ;;
  showPrompt.

(** *** Button actions *)

Definition OK : jsstring := js "OK".

Definition on_noop : M unit := emit (answerCbQuery (js " ")).

Definition on_do_start (w : World) (ctx : Ctx) : M unit :=
  modify (resetSession (chat_id ctx)) ;;
  emit (answerCbQuery OK) ;;
  emit (reply (js "Начали новую сессию.") None) ;;
  showControls w ctx ;;
  showPrompt.

Definition on_new_question : M unit :=
  emit (answerCbQuery OK) ;;
  emit (reply (js "Ок! Напиши новый вопрос текстом 🙂") None).

Definition on_open_settings (w : World) (ctx : Ctx) : M unit :=
  emit (answerCbQuery OK) ;;
  showControls w ctx.

Definition on_back_to_prompt : M unit :=
  emit (answerCbQuery OK) ;;
  showPrompt.

(** [s.field = value] on the settings object of the chat, which the map
    holds by reference. *)
Definition assign (chatId : Z) (f : Settings -> Settings) : M unit :=
  modify (fun st =>
    {| dialogs := dialogs st;
       settingsByChat := alter f chatId (settingsByChat st);
       settingsMsgIdByChat := settingsMsgIdByChat st |}).

Definition set_max_tokens (v : number) (s : Settings) : Settings :=
  {| max_tokens := v; format := format s; temperature := temperature s;
     frequency_penalty := frequency_penalty s;
     presence_penalty := presence_penalty s; use_stop := use_stop s |}.

Definition set_format (v : jsstring) (s : Settings) : Settings :=
  {| max_tokens := max_tokens s; format := v; temperature := temperature s;
     frequency_penalty := frequency_penalty s;
     presence_penalty := presence_penalty s; use_stop := use_stop s |}.

Definition set_temperature (v : number) (s : Settings) : Settings :=
  {| max_tokens := max_tokens s; format := format s; temperature := v;
     frequency_penalty := frequency_penalty s;
     presence_penalty := presence_penalty s; use_stop := use_stop s |}.

Definition set_frequency_penalty (v : number) (s : Settings) : Settings :=
  {| max_tokens := max_tokens s; format := format s; temperature := temperature s;
     frequency_penalty := v;
     presence_penalty := presence_penalty s; use_stop := use_stop s |}.

Definition set_presence_penalty (v : number) (s : Settings) : Settings :=
  {| max_tokens := max_tokens s; format := format s; temperature := temperature s;
     frequency_penalty := frequency_penalty s;
     presence_penalty := v; use_stop := use_stop s |}.

Definition set_use_stop (v : bool) (s : Settings) : Settings :=
  {| max_tokens := max_tokens s; format := format s; temperature := temperature s;
     frequency_penalty := frequency_penalty s;
     presence_penalty := presence_penalty s; use_stop := v |}.

(** The common body of the settings handlers: ensure, read the settings
    object, assign one field, acknowledge, show the settings screen. *)
Definition on_setting (f : Settings -> Settings) (w : World) (ctx : Ctx) : M unit :=
  let chatId := chat_id ctx in
  modify (ensureSession chatId) ;;
  _ <- lift (getSettings chatId) ;;
  assign chatId f ;;
  emit (answerCbQuery OK) ;;
  showControls w ctx.

(** The longest run of digits at the head of a string. *)
Fixpoint take_digits (s : jsstring) : jsstring :=
  match s with
  | c :: r => if is_digit c then c :: take_digits r else []
  | [] => []
  end.

(** [/len_(\d+)/.exec(data)]: the capture of the leftmost match, if any.
    The pattern is not anchored. *)
Fixpoint match_len (data : jsstring) : option jsstring :=
  match data with
  | [] => None
  | _ :: r =>
      if startsWith data (js "len_") then
        match take_digits (skipn 4 data) with
        | [] => match_len r
        | ds => Some ds
        end
      else match_len r
  end.

(** [bot.action] handlers in the order of their registration; a string
    trigger matches the whole callback data, the pattern any part of it.
    Data that no trigger matches is handled by nobody. *)
Definition on_action (w : World) (ctx : Ctx) (data : jsstring) : M unit :=
  if str_eqb data (js "noop") then on_noop
  else if str_eqb data (js "do_start") then on_do_start w ctx
  else if str_eqb data (js "new_question") then on_new_question
  else if str_eqb data (js "open_settings") then on_open_settings w ctx
  else if str_eqb data (js "back_to_prompt") then on_back_to_prompt
  else
    match match_len data with
    | Some ds => on_setting (set_max_tokens (Number_of_digits ds)) w ctx
    | None =>
        if str_eqb data (js "fmt_bullets") then on_setting (set_format (js "bullets")) w ctx
        else if str_eqb data (js "fmt_json") then on_setting (set_format (js "json")) w ctx
        else if str_eqb data (js "temp_0.2") then on_setting (set_temperature (2 # 10)) w ctx
        else if str_eqb data (js "temp_0.9") then on_setting (set_temperature (9 # 10)) w ctx
        else if str_eqb data (js "freq_0") then on_setting (set_frequency_penalty (num 0)) w ctx
        else if str_eqb data (js "freq_0.6") then on_setting (set_frequency_penalty (6 # 10)) w ctx
        else if str_eqb data (js "pres_0") then on_setting (set_presence_penalty (num 0)) w ctx
        else if str_eqb data (js "pres_0.6") then on_setting (set_presence_penalty (6 # 10)) w ctx
        else if str_eqb data (js "stop_on") then on_setting (set_use_stop true) w ctx
        else if str_eqb data (js "stop_off") then on_setting (set_use_stop false) w ctx
        else ret tt
    end.

(** *** Main text handler *)

Definition TYPING : jsstring := js "typing".

(** [history.push(m)]: [history] is the array the map holds for the chat. *)
Definition push (chatId : Z) (m : Message) : M unit :=
  modify (fun st =>
    {| dialogs := alter (fun h => h ++ [m]) chatId (dialogs st);
       settingsByChat := settingsByChat st;
       settingsMsgIdByChat := settingsMsgIdByChat st |}).

Definition constrainedReply (s : Settings) (answer : jsstring) : jsstring :=
  js "✅ С ограничениями" ++ LF ++ prettySettings s ++ LF ++ LF
  ++ safeTelegramText answer.

(** A template slot holding a parameter that may be [undefined]. *)
Definition show_param (o : option number) : jsstring :=
  match o with Some q => Number_toString q | None => js "undefined" end.

Definition unrestrictedReply (answer : jsstring) : jsstring :=
  js "🟦 Без ограничений" ++ LF
  ++ js "temp: " ++ show_param (p_temperature UNRESTRICTED_PARAMS)
  ++ js ", max_tokens: " ++ show_param (p_max_tokens UNRESTRICTED_PARAMS)
  ++ LF ++ LF ++ safeTelegramText answer.

(** The two requests and the two replies, inside the [try]. *)
Definition answer_twice (w : World) (chatId : Z) (userText : jsstring)
    (s : Settings) (history : list Message) : M unit :=
  let baseMessages := history ++ [user_msg userText] in
  emit (sendChatAction TYPING) ;;
  try_catch
    (let constrainedUser := buildConstrainedUserPrompt userText s in
     let constrainedMessages := history ++ [user_msg constrainedUser] in
     constrainedAnswerRaw <-
       callLLM (constrained_response w) constrainedMessages (constrainedParams s) ;;
     emit (reply (constrainedReply s constrainedAnswerRaw) None) ;;
     emit (sendChatAction TYPING) ;;
     unrestrictedAnswerRaw <-
       callLLM (unrestricted_response w) baseMessages UNRESTRICTED_PARAMS ;;
     emit (reply (unrestrictedReply unrestrictedAnswerRaw) None) ;;
     push chatId (user_msg userText) ;;
     push chatId (assistant_msg unrestrictedAnswerRaw) ;;
     showPrompt)
    (emit console_error ;;
     emit (reply APOLOGY_TEXT None) ;;
     showPrompt).

Definition on_text (w : World) (ctx : Ctx) : M unit :=
  let chatId := chat_id ctx in
  match trim <$> message_text ctx with
  | None | Some [] => ret tt
  | Some userText =>
      if startsWith userText (js "/") then ret tt
      else
        hasDialog <- gets (fun st => bool_decide (is_Some (dialogs st !! chatId))) ;;
        hasSettings <- gets (fun st => bool_decide (is_Some (settingsByChat st !! chatId))) ;;
        if negb hasDialog || negb hasSettings then showStartScreen
        else
          s <- lift (getSettings chatId) ;;
          history <- lift (getMessages chatId) ;;
          answer_twice w chatId userText s history
  end.

(** ** Events *)

(** What the transport delivers, after Telegraf has told commands, button
    presses and other text messages apart. *)
Inductive Event :=
| start_command (chatId : Z)
| controls_command (chatId : Z)
| reset_command (chatId : Z)
| button_press (chatId : Z) (data : jsstring) (messageId : option N)
| text_message (chatId : Z) (text : option jsstring).

Definition message_ctx (chatId : Z) (text : option jsstring) : Ctx :=
  {| chat_id := chatId; updateType := message_update;
     message_text := text; callback_message_id := None |}.

Definition callback_ctx (chatId : Z) (messageId : option N) : Ctx :=
  {| chat_id := chatId; updateType := callback_query;
     message_text := None; callback_message_id := messageId |}.

Definition handle (w : World) (e : Event) : M unit :=
  match e with
  | start_command c => on_start w (message_ctx c (Some (js "/start")))
  | controls_command c => on_controls w (message_ctx c (Some (js "/controls")))
  | reset_command c => on_reset w (message_ctx c (Some (js "/reset")))
  | button_press c data mid => on_action w (callback_ctx c mid) data
  | text_message c text => on_text w (message_ctx c text)
  end.

(** The store after a sequence of events, each with the answers of the
    outside, and everything sent meanwhile. *)
Fixpoint run (es : list (World * Event)) (st : Store) : Store * list Out :=
  match es with
  | [] => (st, [])
  | (w, e) :: rest =>
      let '(_, st1, o1) := handle w e st in
      let '(st2, o2) := run rest st1 in
      (st2, o1 ++ o2)
  end.

(** ** The earlier single-answer bot

    The second program of the repository: one map of histories, one request
    per text message, no settings and no screens. *)
Module Legacy.

Definition SYSTEM : jsstring := js "Ты полезный ассистент. Отвечай кратко и по делу.".

Abbreviation Dialogs := (gmap Z (list Message)).

Definition getMessages (chatId : Z) (d : Dialogs) : Dialogs * list Message :=
  match d !! chatId with
  | Some h => (d, h)
  | None => (<[chatId := [system_msg SYSTEM]]> d, [system_msg SYSTEM])
  end.

Definition on_start (chatId : Z) : Eff Dialogs unit :=
  modify (delete chatId) ;;
  emit (reply (js "Привет! Пиши сообщение — я отвечу. Команды: /reset") None).

Definition on_reset (chatId : Z) : Eff Dialogs unit :=
  modify (delete chatId) ;;
  emit (reply (js "Ок, контекст сброшен. Начнём заново.") None).

(** [messages.push(m)] on the array held for the chat. *)
Definition push (chatId : Z) (m : Message) : Eff Dialogs unit :=
  modify (alter (fun h => h ++ [m]) chatId).

(** The request of this bot: model, messages and a fixed temperature. *)
Definition request (messages : list Message) : Payload :=
  [ ("model"%string, JString MODEL);
    ("messages"%string, JMessages messages);
    ("temperature"%string, JNumber (7 # 10)) ].

Definition on_text (answer : Response) (chatId : Z) (text : option jsstring)
    : Eff Dialogs unit :=
  match trim <$> text with
  | None | Some [] => ret tt
  | Some text =>
      messages <- lift (getMessages chatId) ;;
      push chatId (user_msg text) ;;
      emit (sendChatAction TYPING) ;;
      try_catch
        (emit (completions_create (request (messages ++ [user_msg text]))) ;;
         match answer with
         | Rejected => throw
         | Resolved content =>
             let answer := extract content in
             push chatId (assistant_msg answer) ;;
             emit (reply (safeTelegramText answer) None)
         end)
        (emit console_error ;;
         emit (reply APOLOGY_TEXT None))
  end.

End Legacy.

(** ** Observations on a log and on a store *)

(** The number of plain replies carrying exactly the text [t]. *)
Definition replies_with (t : jsstring) (log : list Out) : nat :=
  length (List.filter
            (fun o => match o with reply t' _ => str_eqb t' t | _ => false end) log).

(** The completion requests of a log, in order. *)
Fixpoint requests (log : list Out) : list Payload :=
  match log with
  | [] => []
  | completions_create p :: rest => p :: requests rest
  | _ :: rest => requests rest
  end.

(** [payload[k]]. *)
Fixpoint payload_get (k : string) (p : Payload) : option JValue :=
  match p with
  | [] => None
  | (k', v) :: rest => if String.eqb k k' then Some v else payload_get k rest
  end.

(** The operation put this text and this keyboard on the user's screen. *)
Definition renders (text : jsstring) (kb : Keyboard) (o : Out) : Prop :=
  match o with
  | reply t (Some k) => t = text /\ k = kb
  | editMessageText t k true => t = text /\ k = kb
  | telegram_editMessageText _ _ t k true => t = text /\ k = kb
  | _ => False
  end.

(** The state of one conversation: history, settings, settings message. *)
Definition conversation (chatId : Z) (st : Store)
    : option (list Message) * option Settings * option N :=
  (dialogs st !! chatId, settingsByChat st !! chatId, settingsMsgIdByChat st !! chatId).

Definition default_conversation
    : option (list Message) * option Settings * option N :=
  (Some [system_msg DEFAULT_SYSTEM], Some newDefaultSettings, None).



(** The callback data of every button the program ever draws. *)
Definition drawn_callback_data : list jsstring :=
  List.map callback_data
    (concat (controlsKeyboardOf newDefaultSettings ++ afterAnswerKeyboard ++ startKeyboard)).


(** The buttons of the settings screen that set a field. *)
Inductive SettingButton :=
| len_64 | len_128 | len_256 | len_512
| fmt_bullets | fmt_json
| temp_02 | temp_09
| freq_0 | freq_06
| pres_0 | pres_06
| stop_on | stop_off.

Definition setting_data (b : SettingButton) : jsstring :=
  match b with
  | len_64 => js "len_64" | len_128 => js "len_128"
  | len_256 => js "len_256" | len_512 => js "len_512"
  | fmt_bullets => js "fmt_bullets" | fmt_json => js "fmt_json"
  | temp_02 => js "temp_0.2" | temp_09 => js "temp_0.9"
  | freq_0 => js "freq_0" | freq_06 => js "freq_0.6"
  | pres_0 => js "pres_0" | pres_06 => js "pres_0.6"
  | stop_on => js "stop_on" | stop_off => js "stop_off"
  end.

(** The caption of the button when it is not the selected one. *)
Definition setting_caption (b : SettingButton) : jsstring :=
  match b with
  | len_64 => js "64" | len_128 => js "128"
  | len_256 => js "256" | len_512 => js "512"
  | fmt_bullets => js "Список" | fmt_json => js "JSON"
  | temp_02 => js "0.2" | temp_09 => js "0.9"
  | freq_0 => js "0" | freq_06 => js "0.6"
  | pres_0 => js "0" | pres_06 => js "0.6"
  | stop_on => js "ON" | stop_off => js "OFF"
  end.

Inductive Field :=
| f_max_tokens | f_format | f_temperature
| f_frequency_penalty | f_presence_penalty | f_use_stop.

Inductive FieldValue :=
| VNumber (q : number)
| VString (s : jsstring)
| VBool (b : bool).

Definition field_value (f : Field) (s : Settings) : FieldValue :=
  match f with
  | f_max_tokens => VNumber (max_tokens s)
  | f_format => VString (format s)
  | f_temperature => VNumber (temperature s)
  | f_frequency_penalty => VNumber (frequency_penalty s)
  | f_presence_penalty => VNumber (presence_penalty s)
  | f_use_stop => VBool (use_stop s)
  end.

(** The field a button is for and the value written on it. *)
Definition target (b : SettingButton) : Field :=
  match b with
  | len_64 | len_128 | len_256 | len_512 => f_max_tokens
  | fmt_bullets | fmt_json => f_format
  | temp_02 | temp_09 => f_temperature
  | freq_0 | freq_06 => f_frequency_penalty
  | pres_0 | pres_06 => f_presence_penalty
  | stop_on | stop_off => f_use_stop
  end.

Definition pressed_value (b : SettingButton) : FieldValue :=
  match b with
  | len_64 => VNumber (num 64) | len_128 => VNumber (num 128)
  | len_256 => VNumber (num 256) | len_512 => VNumber (num 512)
  | fmt_bullets => VString (js "bullets") | fmt_json => VString (js "json")
  | temp_02 => VNumber (2 # 10) | temp_09 => VNumber (9 # 10)
  | freq_0 => VNumber (num 0) | freq_06 => VNumber (6 # 10)
  | pres_0 => VNumber (num 0) | pres_06 => VNumber (6 # 10)
  | stop_on => VBool true | stop_off => VBool false
  end.

Definition field_eqb (a b : Field) : bool :=
  match a, b with
  | f_max_tokens, f_max_tokens | f_format, f_format
  | f_temperature, f_temperature
  | f_frequency_penalty, f_frequency_penalty
  | f_presence_penalty, f_presence_penalty | f_use_stop, f_use_stop => true
  | _, _ => false
  end.

(** What the handler of a settings button assigns. *)
Definition setting_effect (b : SettingButton) : Settings -> Settings :=
  match b with
  | len_64 => set_max_tokens (num 64) | len_128 => set_max_tokens (num 128)
  | len_256 => set_max_tokens (num 256) | len_512 => set_max_tokens (num 512)
  | fmt_bullets => set_format (js "bullets") | fmt_json => set_format (js "json")
  | temp_02 => set_temperature (2 # 10) | temp_09 => set_temperature (9 # 10)
  | freq_0 => set_frequency_penalty (num 0)
  | freq_06 => set_frequency_penalty (6 # 10)
  | pres_0 => set_presence_penalty (num 0)
  | pres_06 => set_presence_penalty (6 # 10)
  | stop_on => set_use_stop true | stop_off => set_use_stop false
  end.

(** The caption under which a keyboard shows the button with this callback
    data. *)
Definition caption_of (data : jsstring) (kb : Keyboard) : option jsstring :=
  label <$> List.find (fun b => str_eqb (callback_data b) data) (concat kb).

(** A computation keeps a property of the store. *)
Definition keeps {A} (P : Store -> Prop) (m : M A) : Prop :=
  forall st, P st -> P (snd (fst (m st))).


(** ** Sample answers of the outside *)

(** The constrained request resolves, the unrestricted one is rejected. *)
Definition failing_world : World :=
  {| constrained_response := Resolved (Some (js "one"));
     unrestricted_response := Rejected;
     edit_here_ok := true; edit_by_id_ok := true;
     sent_message_id := Some 7 |}.

(** Both requests resolve. *)
Definition answering_world : World :=
  {| constrained_response := Resolved (Some (js "one"));
     unrestricted_response := Resolved (Some (js "two"));
     edit_here_ok := true; edit_by_id_ok := true;
     sent_message_id := Some 7 |}.

(** ** More observations *)

(** The chat an event belongs to. *)
Definition event_chat (e : Event) : Z :=
  match e with
  | start_command c | controls_command c | reset_command c
  | button_press c _ _ | text_message c _ => c
  end.

(** A history and a settings object exist for the same chats. *)
Definition sessions_paired (st : Store) : Prop :=
  forall c, is_Some (dialogs st !! c) <-> is_Some (settingsByChat st !! c).

(** Every history opens with the system message. *)
Definition system_first (st : Store) : Prop :=
  forall c h, dialogs st !! c = Some h ->
              exists rest, h = system_msg DEFAULT_SYSTEM :: rest.

(** The store with the settings message of a chat recorded, when the id is
    one that [if (id)] accepts. *)
Definition remembered (chatId : Z) (id : option N) (st : Store) : Store :=
  match id with
  | Some (Npos p) =>
      {| dialogs := dialogs st; settingsByChat := settingsByChat st;
         settingsMsgIdByChat := <[chatId := Npos p]> (settingsMsgIdByChat st) |}
  | _ => st
  end.

(** The store with the settings message of a chat forgotten. *)
Definition forgotten (chatId : Z) (st : Store) : Store :=
  {| dialogs := dialogs st; settingsByChat := settingsByChat st;
     settingsMsgIdByChat := delete chatId (settingsMsgIdByChat st) |}.

(** The string triggers of [bot.action]. *)
Definition string_triggers : list jsstring :=
  [ js "noop"; js "do_start"; js "new_question"; js "open_settings";
    js "back_to_prompt"; js "fmt_bullets"; js "fmt_json"; js "temp_0.2";
    js "temp_0.9"; js "freq_0"; js "freq_0.6"; js "pres_0"; js "pres_0.6";
    js "stop_on"; js "stop_off" ].


(** * Properties *)

(** ** Session store *)

Lemma store_eta (st : Store) :
  {| dialogs := dialogs st; settingsByChat := settingsByChat st;
     settingsMsgIdByChat := settingsMsgIdByChat st |} = st.
Proof. by destruct st. Qed.

(** [ensureSession] does nothing to a conversation that exists. *)
Lemma ensureSession_present chatId st h s :
  dialogs st !! chatId = Some h -> settingsByChat st !! chatId = Some s ->
  ensureSession chatId st = st.
Proof.
  intros Hd Hs. unfold ensureSession. rewrite Hd, Hs. apply store_eta.
Qed.

(** C5. A chat id that no map knows gets, from its first [ensureSession], the
    history made of the system message alone and the default settings; and
    whatever the store held before, [resetSession] followed by
    [ensureSession] leaves the chat in that same state, with no settings
    message recorded.  The defaults are 128 tokens, the list format,
    temperature 0.7, both penalties 0 and the stop marker on. *)
Theorem fresh_and_reset_sessions_are_default (st : Store) (chatId : Z) :
  (conversation chatId st = (None, None, None) ->
   conversation chatId (ensureSession chatId st) = default_conversation)
  /\ conversation chatId (ensureSession chatId (resetSession chatId st))
     = default_conversation
  /\ default_conversation
     = (Some [{| role := js "system"; content := DEFAULT_SYSTEM |}],
        Some {| max_tokens := num 128; format := js "bullets";
                temperature := 7 # 10; frequency_penalty := num 0;
                presence_penalty := num 0; use_stop := true |},
        None)
  /\ length [system_msg DEFAULT_SYSTEM] = 1%nat.
Proof.
  split; [|split; [|split; reflexivity]].
  - unfold conversation. intros [= Hd Hs Hm].
    unfold ensureSession; simpl. rewrite Hd, Hs, Hm.
    by rewrite !lookup_insert_eq.
  - unfold conversation, resetSession, ensureSession; simpl.
    rewrite ?lookup_delete_eq; simpl.
    rewrite ?lookup_insert_eq, ?lookup_delete_eq. reflexivity.
Qed.

Lemma fresh_and_reset_sessions_witness :
  conversation 5 empty_store = (None, None, None) /\
  conversation 5 (ensureSession 5 empty_store) = default_conversation.
Proof.
  split; [reflexivity|].
  apply (proj1 (fresh_and_reset_sessions_are_default empty_store 5)).
  reflexivity.
Defined.

(** ** Prompt builder *)

(** [Math.round] is within one half of its argument. *)
Lemma Math_round_nearest (q : number) :
  (inject_Z (Math_round q) - (1 # 2) <= q /\ q < inject_Z (Math_round q) + (1 # 2))%Q.
Proof.
  unfold Math_round.
  pose proof (Qfloor_le (q + (1 # 2))) as Hle.
  pose proof (Qlt_floor (q + (1 # 2))) as Hlt.
  rewrite inject_Z_plus in Hlt. change (inject_Z 1) with 1%Q in Hlt.
  split; lra.
Qed.

Lemma lengthWords_set_max_tokens (v : number) (s : Settings) :
  lengthWords (set_max_tokens v s) = Z.min 120 (Math_round (v * (75 # 100))%Q).
Proof. exact eq_refl. Qed.

(** C6. The prompt is the trimmed user text, an empty line, the heading and
    three directives; the number of words in the length directive is
    [min(120, r)] where [r] is the integer nearest to three quarters of
    [max_tokens], a tie going up, as [Math.round] does.  For 512 tokens the
    directive says 120 words and for 64 tokens 48. *)
Theorem length_directive_words (userText : jsstring) (s : Settings) :
  (exists r : Z,
     (inject_Z r - (1 # 2) <= max_tokens s * (3 # 4)
      /\ max_tokens s * (3 # 4) < inject_Z r + (1 # 2))%Q
     /\ buildConstrainedUserPrompt userText s =
        trim userText ++ LF ++ LF ++ js "Требования к ответу:" ++ LF
        ++ (js "- " ++ formatInstruction s) ++ LF
        ++ (js "- " ++ js "Ограничение длины: уложись примерно в "
            ++ show_int (Z.min 120 r) ++ js " слов максимум.") ++ LF
        ++ (js "- " ++ stopInstruction s))
  /\ lengthInstruction (set_max_tokens (num 512) s)
     = js "Ограничение длины: уложись примерно в " ++ js "120" ++ js " слов максимум."
  /\ lengthInstruction (set_max_tokens (num 64) s)
     = js "Ограничение длины: уложись примерно в " ++ js "48" ++ js " слов максимум.".
Proof.
  split; [|split].
  - exists (Math_round (max_tokens s * (75 # 100))%Q). split.
    + pose proof (Math_round_nearest (max_tokens s * (75 # 100))%Q) as [H1 H2].
      assert (max_tokens s * (75 # 100) == max_tokens s * (3 # 4))%Q as E
        by (apply Qmult_comp; reflexivity).
      rewrite <- E. split; assumption.
    + unfold buildConstrainedUserPrompt, join. rewrite app_nil_l.
      unfold lengthInstruction, lengthWords. exact eq_refl.
  - unfold lengthInstruction. rewrite lengthWords_set_max_tokens.
    replace (show_int _) with (js "120") by (vm_compute; exact eq_refl).
    exact eq_refl.
  - unfold lengthInstruction. rewrite lengthWords_set_max_tokens.
    replace (show_int _) with (js "48") by (vm_compute; exact eq_refl).
    exact eq_refl.
Qed.

(** ** Completion gateway *)

(** Nothing [undefined] survives [stripUndefined]. *)
Lemma stripUndefined_defined (p : Payload) (k : string) :
  payload_get k (stripUndefined p) <> Some JUndefined.
Proof.
  induction p as [|[k' v] p IH]; [discriminate|].
  unfold stripUndefined in *. cbn [List.filter snd].
  destruct v; cbn [is_undefined negb payload_get]; try exact IH;
    destruct (String.eqb k k'); try exact IH; discriminate.
Qed.

(** A parameter is in the request exactly when it is set. *)
Lemma requestPayload_fields messages params :
  payload_get "temperature" (requestPayload messages params)
  = JNumber <$> p_temperature params
  /\ payload_get "max_tokens" (requestPayload messages params)
     = JNumber <$> p_max_tokens params
  /\ payload_get "frequency_penalty" (requestPayload messages params)
     = JNumber <$> p_frequency_penalty params
  /\ payload_get "presence_penalty" (requestPayload messages params)
     = JNumber <$> p_presence_penalty params
  /\ payload_get "stop" (requestPayload messages params)
     = JStrings <$> p_stop params.
Proof.
  destruct params as [[t|] [m|] [f|] [p|] [st|]];
    repeat split; exact eq_refl.
Qed.

(** C7. The constrained parameters hold the one-element list of the stop
    marker as [stop] when [use_stop] is on and leave it unset otherwise; and
    in the request sent for any parameters, a parameter is present exactly
    when it is set, with its value, and no property is [undefined]: for the
    constrained parameters, [stop] is the marker list or is not a property
    of the request at all. *)
Theorem stop_follows_use_stop_and_unset_is_omitted (s : Settings)
    (messages : list Message) (params : GenerationParams) :
  p_stop (constrainedParams s)
  = (if use_stop s then Some [STOP_MARKER] else None)
  /\ (p_stop (constrainedParams s) = Some [STOP_MARKER] <-> use_stop s = true)
  /\ (payload_get "temperature" (requestPayload messages params)
      = JNumber <$> p_temperature params
      /\ payload_get "max_tokens" (requestPayload messages params)
         = JNumber <$> p_max_tokens params
      /\ payload_get "frequency_penalty" (requestPayload messages params)
         = JNumber <$> p_frequency_penalty params
      /\ payload_get "presence_penalty" (requestPayload messages params)
         = JNumber <$> p_presence_penalty params
      /\ payload_get "stop" (requestPayload messages params)
         = JStrings <$> p_stop params)
  /\ (forall k, payload_get k (requestPayload messages params) <> Some JUndefined)
  /\ payload_get "stop" (requestPayload messages (constrainedParams s))
     = (if use_stop s then Some (JStrings [STOP_MARKER]) else None).
Proof.
  split; [exact eq_refl|]. split.
  - unfold constrainedParams. cbn [p_stop].
    destruct (use_stop s); split; intros H; try exact eq_refl; discriminate.
  - split; [apply requestPayload_fields|]. split.
    + intros k. apply stripUndefined_defined.
    + destruct (requestPayload_fields messages (constrainedParams s))
        as (_ & _ & _ & _ & ->).
      unfold constrainedParams. cbn [p_stop]. by destruct (use_stop s).
Qed.

(** ** Text handler *)

Ltac run_eff :=
  cbv beta iota zeta delta
    [bind ret emit throw gets modify lift try_catch callLLM showPrompt
     showStartScreen push app].

Lemma answer_twice_success w chatId userText s history st c1 c2 :
  constrained_response w = Resolved c1 ->
  unrestricted_response w = Resolved c2 ->
  answer_twice w chatId userText s history st =
  (Returned tt,
   {| dialogs := alter (fun h => h ++ [assistant_msg (extract c2)]) chatId
                   (alter (fun h => h ++ [user_msg userText]) chatId (dialogs st));
      settingsByChat := settingsByChat st;
      settingsMsgIdByChat := settingsMsgIdByChat st |},
   [ sendChatAction TYPING;
     completions_create
       (requestPayload (history ++ [user_msg (buildConstrainedUserPrompt userText s)])
          (constrainedParams s));
     reply (constrainedReply s (extract c1)) None;
     sendChatAction TYPING;
     completions_create
       (requestPayload (history ++ [user_msg userText]) UNRESTRICTED_PARAMS);
     reply (unrestrictedReply (extract c2)) None;
     reply PROMPT_TEXT (Some afterAnswerKeyboard) ]).
Proof.
  intros H1 H2. unfold answer_twice. rewrite H1, H2.
  run_eff. exact eq_refl.
Qed.

Lemma answer_twice_constrained_rejected w chatId userText s history st :
  constrained_response w = Rejected ->
  answer_twice w chatId userText s history st =
  (Returned tt, st,
   [ sendChatAction TYPING;
     completions_create
       (requestPayload (history ++ [user_msg (buildConstrainedUserPrompt userText s)])
          (constrainedParams s));
     console_error;
     reply APOLOGY_TEXT None;
     reply PROMPT_TEXT (Some afterAnswerKeyboard) ]).
Proof.
  intros H1. unfold answer_twice. rewrite H1.
  run_eff. exact eq_refl.
Qed.

Lemma answer_twice_unrestricted_rejected w chatId userText s history st c1 :
  constrained_response w = Resolved c1 ->
  unrestricted_response w = Rejected ->
  answer_twice w chatId userText s history st =
  (Returned tt, st,
   [ sendChatAction TYPING;
     completions_create
       (requestPayload (history ++ [user_msg (buildConstrainedUserPrompt userText s)])
          (constrainedParams s));
     reply (constrainedReply s (extract c1)) None;
     sendChatAction TYPING;
     completions_create
       (requestPayload (history ++ [user_msg userText]) UNRESTRICTED_PARAMS);
     console_error;
     reply APOLOGY_TEXT None;
     reply PROMPT_TEXT (Some afterAnswerKeyboard) ]).
Proof.
  intros H1 H2. unfold answer_twice. rewrite H1, H2.
  run_eff. exact eq_refl.
Qed.

(** A text that is no command, in a conversation that exists, goes to the
    two requests. *)
Lemma on_text_answers w chatId text st history s :
  trim text <> [] -> startsWith (trim text) (js "/") = false ->
  dialogs st !! chatId = Some history -> settingsByChat st !! chatId = Some s ->
  handle w (text_message chatId (Some text)) st
  = answer_twice w chatId (trim text) s history st.
Proof.
  intros Hne Hcmd Hd Hs.
  unfold handle, on_text, message_ctx.
  cbv beta iota zeta delta [chat_id message_text fmap option_fmap option_map].
  destruct (trim text) as [|c r] eqn:E; [congruence|].
  rewrite Hcmd.
  cbv beta iota zeta delta [bind gets lift getSettings getMessages].
  rewrite !bool_decide_eq_true_2 by eauto.
  cbv beta iota zeta delta [negb orb].
  rewrite !(ensureSession_present chatId st history s Hd Hs).
  rewrite Hd, Hs.
  cbv beta iota zeta delta [default from_option id].
  destruct (answer_twice w chatId (c :: r) s history st) as [[o st'] log].
  exact eq_refl.
Qed.

(** The labelled constrained reply is never the apology. *)
Lemma constrainedReply_not_apology s a :
  str_eqb (constrainedReply s a) APOLOGY_TEXT = false.
Proof.
  apply bool_decide_eq_false_2. unfold constrainedReply.
  replace (js "✅ С ограничениями") with (9989 :: tl (js "✅ С ограничениями"))
    by (vm_compute; exact eq_refl).
  replace APOLOGY_TEXT with (1059 :: tl APOLOGY_TEXT)
    by (vm_compute; exact eq_refl).
  rewrite <- app_comm_cons. intros [= H].
Qed.

Lemma prompt_not_apology : str_eqb PROMPT_TEXT APOLOGY_TEXT = false.
Proof. vm_compute. exact eq_refl. Qed.

Lemma apology_is_apology : str_eqb APOLOGY_TEXT APOLOGY_TEXT = true.
Proof. by apply bool_decide_eq_true_2. Qed.

(** What the handler does when a completion call is rejected. *)
Lemma completion_failure_paths (w : World) (chatId : Z)
    (text : jsstring) (st : Store) (history : list Message) (s : Settings) :
  trim text <> [] -> startsWith (trim text) (js "/") = false ->
  dialogs st !! chatId = Some history -> settingsByChat st !! chatId = Some s ->
  constrained_response w = Rejected \/ unrestricted_response w = Rejected ->
  exists log,
    handle w (text_message chatId (Some text)) st = (Returned tt, st, log)
    /\ replies_with APOLOGY_TEXT log = 1%nat
    /\ last log = Some (reply PROMPT_TEXT (Some afterAnswerKeyboard)).
Proof.
  intros Hne Hcmd Hd Hs Hfail.
  rewrite (on_text_answers w chatId text st history s Hne Hcmd Hd Hs).
  destruct (constrained_response w) as [|c1] eqn:H1.
  - eexists. split; [apply answer_twice_constrained_rejected; exact H1|].
    split; [|exact eq_refl].
    unfold replies_with. cbv beta iota delta [List.filter].
    rewrite apology_is_apology, prompt_not_apology. exact eq_refl.
  - destruct Hfail as [Hfail|H2]; [discriminate|].
    eexists. split; [eapply answer_twice_unrestricted_rejected; eauto|].
    split; [|exact eq_refl].
    unfold replies_with. cbv beta iota delta [List.filter].
    rewrite apology_is_apology, prompt_not_apology, constrainedReply_not_apology.
    exact eq_refl.
Qed.



(** C2, as stated, fails: after a start on a new chat, "hello" answered by
    the constrained request and rejected on the unrestricted one leaves the
    history at the system message; the user message is not in it. *)
Lemma hello_failure_history_counterexample :
  let st0 := fst (run [(failing_world, start_command 1)] empty_store) in
  dialogs st0 !! 1%Z = Some [system_msg DEFAULT_SYSTEM]
  /\ (let '(_, st1, _) :=
        handle failing_world (text_message 1 (Some (js "hello"))) st0 in
      dialogs st1 !! 1%Z = Some [system_msg DEFAULT_SYSTEM]
      /\ dialogs st1 !! 1%Z
         <> Some [system_msg DEFAULT_SYSTEM; user_msg (js "hello")]).
Proof.
  vm_compute. split; [exact eq_refl|]. split; [exact eq_refl|]. discriminate.
Qed.

(** C2, amended. A conversation whose history is the system message alone,
    the text "hello", a constrained request that resolves and an
    unrestricted one that is rejected: exactly one apology is sent, the
    history is still the system message alone (the user message is not
    appended), the settings are untouched and the last thing sent is the
    prompt screen. *)
Theorem hello_failure_keeps_fresh_history (w : World) (chatId : Z)
    (text : jsstring) (st : Store) (s : Settings) (c1 : option jsstring) :
  trim text = js "hello" ->
  dialogs st !! chatId = Some [system_msg DEFAULT_SYSTEM] ->
  settingsByChat st !! chatId = Some s ->
  constrained_response w = Resolved c1 ->
  unrestricted_response w = Rejected ->
  exists st' log,
    handle w (text_message chatId (Some text)) st = (Returned tt, st', log)
    /\ replies_with APOLOGY_TEXT log = 1%nat
    /\ dialogs st' !! chatId = Some [system_msg DEFAULT_SYSTEM]
    /\ settingsByChat st' !! chatId = Some s
    /\ last log = Some (reply PROMPT_TEXT (Some afterAnswerKeyboard)).
Proof.
  intros Ht Hd Hs H1 H2.
  assert (Hne : trim text <> []) by (rewrite Ht; vm_compute; discriminate).
  assert (Hcmd : startsWith (trim text) (js "/") = false)
    by (rewrite Ht; vm_compute; exact eq_refl).
  destruct (completion_failure_paths w chatId text st _ s Hne Hcmd Hd Hs (or_intror H2))
    as (log & Hrun & Hone & Hlast).
  exists st, log. auto.
Qed.

Lemma hello_failure_witness :
  exists st' log,
    handle failing_world (text_message 1 (Some (js "hello")))
      (resetSession 1 empty_store) = (Returned tt, st', log)
    /\ replies_with APOLOGY_TEXT log = 1%nat
    /\ dialogs st' !! 1%Z = Some [system_msg DEFAULT_SYSTEM]
    /\ settingsByChat st' !! 1%Z = Some newDefaultSettings
    /\ last log = Some (reply PROMPT_TEXT (Some afterAnswerKeyboard)).
Proof.
  apply (hello_failure_keeps_fresh_history failing_world 1 (js "hello")
           (resetSession 1 empty_store) newDefaultSettings (Some (js "one"))).
  - vm_compute. exact eq_refl.
  - vm_compute. exact eq_refl.
  - vm_compute. exact eq_refl.
  - exact eq_refl.
  - exact eq_refl.
Defined.

(** The request carries the message list it was built from. *)
Lemma requestPayload_messages messages params :
  payload_get "messages" (requestPayload messages params)
  = Some (JMessages messages).
Proof. exact eq_refl. Qed.

(** Two [push]es on a history that exists. *)
Lemma alter_push_twice (chatId : Z) (d : gmap Z (list Message)) h a b :
  d !! chatId = Some h ->
  alter (fun h => h ++ [b]) chatId (alter (fun h => h ++ [a]) chatId d)
  = <[chatId := h ++ [a; b]]> d.
Proof.
  intros Hd. apply map_eq. intros k.
  destruct (decide (chatId = k)) as [->|Hne].
  - rewrite !lookup_alter_eq, lookup_insert_eq, Hd. simpl.
    by rewrite <- app_assoc.
  - by rewrite !lookup_alter_ne, lookup_insert_ne.
Qed.

(** C3. When both requests resolve, the handler issues exactly two requests:
    the constrained one on the history followed by the constrained prompt,
    then the unrestricted one on the same history followed by the user text
    as the handler reads it (trimmed); afterwards the history of the chat is
    the old one followed by that user text and the unrestricted answer, in
    this order, and nothing of the constrained exchange; no other history
    and no settings change. *)
Theorem history_grows_by_the_unrestricted_exchange (w : World) (chatId : Z)
    (text : jsstring) (st : Store) (history : list Message) (s : Settings)
    (c1 c2 : option jsstring) :
  trim text <> [] -> startsWith (trim text) (js "/") = false ->
  dialogs st !! chatId = Some history -> settingsByChat st !! chatId = Some s ->
  constrained_response w = Resolved c1 ->
  unrestricted_response w = Resolved c2 ->
  exists st' log constrained unrestricted,
    handle w (text_message chatId (Some text)) st = (Returned tt, st', log)
    /\ requests log = [constrained; unrestricted]
    /\ payload_get "messages" constrained
       = Some (JMessages
                 (history ++ [user_msg (buildConstrainedUserPrompt (trim text) s)]))
    /\ payload_get "messages" unrestricted
       = Some (JMessages (history ++ [user_msg (trim text)]))
    /\ dialogs st'
       = <[chatId := history ++ [user_msg (trim text);
                                 assistant_msg (extract c2)]]> (dialogs st)
    /\ settingsByChat st' = settingsByChat st.
Proof.
  intros Hne Hcmd Hd Hs H1 H2.
  rewrite (on_text_answers w chatId text st history s Hne Hcmd Hd Hs).
  rewrite (answer_twice_success w chatId (trim text) s history st c1 c2 H1 H2).
  eexists _, _, _, _. split; [exact eq_refl|].
  split; [exact eq_refl|].
  split; [apply requestPayload_messages|].
  split; [apply requestPayload_messages|].
  split; [|exact eq_refl].
  cbv beta iota delta [dialogs]. by apply alter_push_twice.
Qed.

Lemma history_grows_witness :
  exists st' log constrained unrestricted,
    handle answering_world (text_message 1 (Some (js "hello")))
      (resetSession 1 empty_store) = (Returned tt, st', log)
    /\ requests log = [constrained; unrestricted]
    /\ payload_get "messages" constrained
       = Some (JMessages
                 ([system_msg DEFAULT_SYSTEM]
                  ++ [user_msg (buildConstrainedUserPrompt (trim (js "hello"))
                                  newDefaultSettings)]))
    /\ payload_get "messages" unrestricted
       = Some (JMessages ([system_msg DEFAULT_SYSTEM] ++ [user_msg (trim (js "hello"))]))
    /\ dialogs st'
       = <[1%Z := [system_msg DEFAULT_SYSTEM]
                  ++ [user_msg (trim (js "hello"));
                      assistant_msg (extract (Some (js "two")))]]>
           (dialogs (resetSession 1 empty_store))
    /\ settingsByChat st' = settingsByChat (resetSession 1 empty_store).
Proof.
  apply (history_grows_by_the_unrestricted_exchange answering_world 1
           (js "hello") (resetSession 1 empty_store)
           [system_msg DEFAULT_SYSTEM] newDefaultSettings
           (Some (js "one")) (Some (js "two"))).
  - vm_compute. discriminate.
  - vm_compute. exact eq_refl.
  - vm_compute. exact eq_refl.
  - vm_compute. exact eq_refl.
  - exact eq_refl.
  - exact eq_refl.
Defined.



(** C10. A text message whose text is absent or trims to the empty string
    does nothing: the handler returns with the store it was given, all three
    maps included, and an empty log, so no reply and no completion request;
    the same holds for the text handler of the earlier bot. *)
Theorem blank_text_is_ignored (w : World) (chatId : Z) (text : option jsstring)
    (st : Store) (answer : Response) (d : gmap Z (list Message)) :
  match text with None => True | Some t => trim t = [] end ->
  handle w (text_message chatId text) st = (Returned tt, st, [])
  /\ Legacy.on_text answer chatId text d = (Returned tt, d, []).
Proof.
  intros H. unfold handle, on_text, Legacy.on_text, message_ctx.
  cbv beta iota zeta delta [chat_id message_text fmap option_fmap option_map].
  destruct text as [t|]; [rewrite H|]; split; exact eq_refl.
Qed.

Lemma blank_text_witness :
  handle answering_world (text_message 1 (Some (js "  "))) empty_store
  = (Returned tt, empty_store, [])
  /\ Legacy.on_text Rejected 1 (Some (js "  ")) ∅ = (Returned tt, ∅, []).
Proof.
  apply (blank_text_is_ignored answering_world 1 (Some (js "  ")) empty_store
           Rejected ∅).
  vm_compute. exact eq_refl.
Defined.

(** ** Settings screen and settings buttons *)

(** In a conversation that exists, [showControls] leaves histories and
    settings alone, and the last thing it does puts the settings text and
    keyboard of the current settings on the screen. *)
Lemma showControls_renders (w : World) (ctx : Ctx) (st : Store) h s :
  dialogs st !! chat_id ctx = Some h ->
  settingsByChat st !! chat_id ctx = Some s ->
  exists st' log o,
    showControls w ctx st = (Returned tt, st', log)
    /\ dialogs st' = dialogs st
    /\ settingsByChat st' = settingsByChat st
    /\ last log = Some o
    /\ renders (controlsText s) (controlsKeyboardOf s) o.
Proof.
  intros Hd Hs. unfold showControls.
  cbv beta iota zeta delta
    [bind ret emit gets modify lift getSettings controlsKeyboard remember forget].
  rewrite !(ensureSession_present _ st h s Hd Hs). rewrite !Hs.
  cbv beta iota zeta delta [default from_option id].
  destruct (updateType ctx); destruct (edit_here_ok w);
    destruct (settingsMsgIdByChat st !! chat_id ctx) as [[|p]|];
    destruct (edit_by_id_ok w);
    destruct (sent_message_id w) as [[|q]|];
    destruct (callback_message_id ctx) as [[|q']|];
    eexists _, _, _;
    (split; [exact eq_refl|]);
    (split; [exact eq_refl|]);
    (split; [exact eq_refl|]);
    (split; [exact eq_refl|]); cbn [renders]; split; exact eq_refl.
Qed.

Lemma alter_present {A} (f : A -> A) (k : Z) (m : gmap Z A) (x : A) :
  m !! k = Some x -> alter f k m = <[k := f x]> m.
Proof.
  intros Hk. apply map_eq. intros j.
  destruct (decide (k = j)) as [->|Hne].
  - by rewrite lookup_alter_eq, lookup_insert_eq, Hk.
  - by rewrite lookup_alter_ne, lookup_insert_ne.
Qed.

(** A settings handler in a conversation that exists. *)
Lemma on_setting_present (f : Settings -> Settings) (w : World) (ctx : Ctx)
    (st : Store) h s :
  dialogs st !! chat_id ctx = Some h ->
  settingsByChat st !! chat_id ctx = Some s ->
  exists st' log o,
    on_setting f w ctx st = (Returned tt, st', answerCbQuery OK :: log)
    /\ dialogs st' = dialogs st
    /\ settingsByChat st' = <[chat_id ctx := f s]> (settingsByChat st)
    /\ last log = Some o
    /\ renders (controlsText (f s)) (controlsKeyboardOf (f s)) o.
Proof.
  intros Hd Hs.
  pose (st1 := {| dialogs := dialogs st;
                  settingsByChat := alter f (chat_id ctx) (settingsByChat st);
                  settingsMsgIdByChat := settingsMsgIdByChat st |}).
  destruct (showControls_renders w ctx st1 h (f s)) as (st' & log & o & Hrun & Hd' & Hs' & Hlast & Hr).
  { exact Hd. }
  { unfold st1. cbn [settingsByChat]. by rewrite lookup_alter_eq, Hs. }
  exists st', log, o. split.
  - unfold on_setting.
    cbv beta iota zeta delta [bind emit modify lift getSettings assign].
    rewrite !(ensureSession_present _ st h s Hd Hs).
    fold st1. rewrite Hrun. exact eq_refl.
  - rewrite Hd', Hs'. unfold st1. cbn [dialogs settingsByChat].
    rewrite (alter_present f _ _ s Hs). auto.
Qed.

Ltac decide_tests :=
  repeat match goal with
    | |- context [str_eqb ?a ?b] =>
        let v := eval vm_compute in (str_eqb a b) in
        replace (str_eqb a b) with v by (vm_compute; exact eq_refl)
    | |- context [match_len ?a] =>
        let v := eval vm_compute in (match_len a) in
        replace (match_len a) with v by (vm_compute; exact eq_refl)
    end.

(** Each settings button reaches the handler that assigns its value. *)
Lemma on_action_setting (w : World) (ctx : Ctx) (b : SettingButton) :
  on_action w ctx (setting_data b) = on_setting (setting_effect b) w ctx.
Proof.
  destruct b; unfold on_action, setting_data; decide_tests; exact eq_refl.
Qed.

Lemma setting_effect_fields (b : SettingButton) (s : Settings) (f : Field) :
  field_value f (setting_effect b s)
  = if field_eqb f (target b) then pressed_value b else field_value f s.
Proof. destruct b, f; exact eq_refl. Qed.

Lemma setting_effect_caption (b : SettingButton) (s : Settings) :
  caption_of (setting_data b) (controlsKeyboardOf (setting_effect b s))
  = Some (js "🟩 " ++ setting_caption b).
Proof. destruct b; vm_compute; exact eq_refl. Qed.

(** C8. Pressing a settings button in a conversation that exists: the press
    is acknowledged; of the six settings fields the one the button is for
    takes the value written on the button and the five others keep theirs;
    no history changes and no other chat's settings change; and the last
    thing done puts on the screen the settings text and keyboard of the new
    settings, in which the pressed button carries the selection mark. *)
Theorem setting_press_changes_one_field (w : World) (chatId : Z)
    (messageId : option N) (b : SettingButton) (st : Store)
    (h : list Message) (s : Settings) :
  dialogs st !! chatId = Some h -> settingsByChat st !! chatId = Some s ->
  exists st' s' log o,
    handle w (button_press chatId (setting_data b) messageId) st
    = (Returned tt, st', answerCbQuery OK :: log)
    /\ dialogs st' = dialogs st
    /\ settingsByChat st' = <[chatId := s']> (settingsByChat st)
    /\ (forall f, field_value f s'
                  = if field_eqb f (target b) then pressed_value b
                    else field_value f s)
    /\ last log = Some o
    /\ renders (controlsText s') (controlsKeyboardOf s') o
    /\ caption_of (setting_data b) (controlsKeyboardOf s')
       = Some (js "🟩 " ++ setting_caption b).
Proof.
  intros Hd Hs. unfold handle. rewrite on_action_setting.
  destruct (on_setting_present (setting_effect b) w (callback_ctx chatId messageId)
              st h s Hd Hs) as (st' & log & o & Hrun & Hd' & Hs' & Hlast & Hr).
  exists st', (setting_effect b s), log, o.
  split; [exact Hrun|]. split; [exact Hd'|]. split; [exact Hs'|].
  split; [apply setting_effect_fields|]. split; [exact Hlast|].
  split; [exact Hr|]. apply setting_effect_caption.
Qed.

Lemma setting_press_witness :
  exists st' s' log o,
    handle answering_world (button_press 1 (setting_data len_256) (Some 9))
      (resetSession 1 empty_store)
    = (Returned tt, st', answerCbQuery OK :: log)
    /\ dialogs st' = dialogs (resetSession 1 empty_store)
    /\ settingsByChat st'
       = <[1%Z := s']> (settingsByChat (resetSession 1 empty_store))
    /\ (forall f, field_value f s'
                  = if field_eqb f (target len_256) then pressed_value len_256
                    else field_value f newDefaultSettings)
    /\ last log = Some o
    /\ renders (controlsText s') (controlsKeyboardOf s') o
    /\ caption_of (setting_data len_256) (controlsKeyboardOf s')
       = Some (js "🟩 " ++ setting_caption len_256).
Proof.
  apply (setting_press_changes_one_field answering_world 1 (Some 9) len_256
           (resetSession 1 empty_store) [system_msg DEFAULT_SYSTEM]
           newDefaultSettings).
  - vm_compute. exact eq_refl.
  - vm_compute. exact eq_refl.
Defined.

(** ** The token budget *)

Section Keeps.

Context (P : Store -> Prop).

Lemma keeps_ret {A} (a : A) : keeps P (ret a).
Proof. intros st H. exact H. Qed.

Lemma keeps_emit (o : Out) : keeps P (emit o).
Proof. intros st H. exact H. Qed.

Lemma keeps_gets {A} (f : Store -> A) : keeps P (gets f).
Proof. intros st H. exact H. Qed.

Lemma keeps_throw {A} : keeps P (@throw Store A).
Proof. intros st H. exact H. Qed.

Lemma keeps_modify (f : Store -> Store) :
  (forall st, P st -> P (f st)) -> keeps P (modify f).
Proof. intros Hf st H. apply Hf, H. Qed.

Lemma keeps_lift {A} (f : Store -> Store * A) :
  (forall st, P st -> P (fst (f st))) -> keeps P (lift f).
Proof.
  intros Hf st H. unfold lift. specialize (Hf st H).
  destruct (f st) as [st' a]. exact Hf.
Qed.

Lemma keeps_bind {A B} (m : M A) (f : A -> M B) :
  keeps P m -> (forall a, keeps P (f a)) -> keeps P (bind m f).
Proof.
  intros Hm Hf st H. unfold bind. specialize (Hm st H).
  destruct (m st) as [[[a|] st1] o1]; [|exact Hm].
  specialize (Hf a st1 Hm). cbn [fst snd] in *.
  destruct (f a st1) as [[r st2] o2]. exact Hf.
Qed.

Lemma keeps_try_catch {A} (body handler : M A) :
  keeps P body -> keeps P handler -> keeps P (try_catch body handler).
Proof.
  intros Hb Hh st H. unfold try_catch. specialize (Hb st H).
  destruct (body st) as [[[a|] st1] o1]; [exact Hb|].
  specialize (Hh st1 Hb). cbn [fst snd] in *.
  destruct (handler st1) as [[r st2] o2]. exact Hh.
Qed.

Lemma keeps_callLLM answer messages params :
  keeps P (@callLLM Store answer messages params).
Proof.
  unfold callLLM. apply keeps_bind; [apply keeps_emit|].
  intros _. destruct answer; [apply keeps_throw|apply keeps_ret].
Qed.

End Keeps.


















(** * Further properties *)

(** ** Further properties of the session store *)

(** [ensureSession] and [resetSession] of one chat do not reach another. *)
Lemma ensureSession_other (chatId other : Z) (st : Store) :
  other <> chatId ->
  conversation other (ensureSession chatId st) = conversation other st.
Proof.
  intros Hne. unfold conversation, ensureSession.
  cbn [dialogs settingsByChat settingsMsgIdByChat].
  destruct (dialogs st !! chatId); destruct (settingsByChat st !! chatId);
    rewrite ?lookup_insert_ne by done; exact eq_refl.
Qed.

Lemma resetSession_other (chatId other : Z) (st : Store) :
  other <> chatId ->
  conversation other (resetSession chatId st) = conversation other st.
Proof.
  intros Hne. unfold resetSession.
  rewrite (ensureSession_other chatId other _ Hne).
  unfold conversation. cbn [dialogs settingsByChat settingsMsgIdByChat].
  by rewrite !lookup_delete_ne.
Qed.

(** [ensureSession] twice is [ensureSession] once, and it never touches
    another chat. *)
Theorem ensureSession_idempotent_and_local (chatId other : Z) (st : Store) :
  ensureSession chatId (ensureSession chatId st) = ensureSession chatId st
  /\ (other <> chatId ->
      conversation other (ensureSession chatId st) = conversation other st).
Proof.
  split.
  - destruct (dialogs (ensureSession chatId st) !! chatId) as [h|] eqn:Hd;
      destruct (settingsByChat (ensureSession chatId st) !! chatId) as [s|] eqn:Hs.
    + by apply (ensureSession_present _ _ h s).
    + exfalso. revert Hs. unfold ensureSession. cbn [settingsByChat].
      destruct (settingsByChat st !! chatId) eqn:E; [by rewrite E|].
      by rewrite lookup_insert_eq.
    + exfalso. revert Hd. unfold ensureSession. cbn [dialogs].
      destruct (dialogs st !! chatId) eqn:E; [by rewrite E|].
      by rewrite lookup_insert_eq.
    + exfalso. revert Hd. unfold ensureSession. cbn [dialogs].
      destruct (dialogs st !! chatId) eqn:E; [by rewrite E|].
      by rewrite lookup_insert_eq.
  - apply ensureSession_other.
Qed.

Lemma ensureSession_local_witness :
  conversation 2 (ensureSession 1 empty_store) = conversation 2 empty_store.
Proof.
  apply (proj2 (ensureSession_idempotent_and_local 1 2 empty_store)). lia.
Defined.

(** [resetSession] leaves every other chat as it was. *)
Theorem resetSession_local (chatId other : Z) (st : Store) :
  other <> chatId ->
  conversation other (resetSession chatId st) = conversation other st.
Proof. apply resetSession_other. Qed.

Lemma resetSession_local_witness :
  conversation 2 (resetSession 1 (resetSession 2 empty_store))
  = conversation 2 (resetSession 2 empty_store).
Proof. apply (resetSession_local 1 2 (resetSession 2 empty_store)). lia. Defined.

(** ** Properties kept by every handler *)

(** A property of the store that the six ways in which the handlers of one
    chat write to the store keep is kept by the handling of every event of
    that chat. *)
Section HandlerKeeps.

Context (P : Store -> Prop) (c : Z).
Hypothesis P_ensure : forall st, P st -> P (ensureSession c st).
Hypothesis P_reset : forall st, P st -> P (resetSession c st).
Hypothesis P_push : forall m, keeps P (push c m).
Hypothesis P_assign : forall f, keeps P (assign c f).
Hypothesis P_remember : forall id, keeps P (remember c id).
Hypothesis P_forget : keeps P (forget c).

Lemma kept_getSettings : keeps P (lift (getSettings c)).
Proof. apply keeps_lift. intros st H. apply P_ensure, H. Qed.

Lemma kept_getMessages : keeps P (lift (getMessages c)).
Proof. apply keeps_lift. intros st H. apply P_ensure, H. Qed.

Lemma kept_controlsKeyboard : keeps P (lift (controlsKeyboard c)).
Proof.
  apply keeps_lift. intros st H. unfold controlsKeyboard, getSettings.
  apply P_ensure, H.
Qed.

Lemma kept_showPrompt : keeps P showPrompt.
Proof. apply keeps_emit. Qed.

Lemma kept_send_new w text keyboard :
  keeps P (bind (emit (reply text (Some keyboard)))
             (fun _ => remember c (sent_message_id w))).
Proof. apply keeps_bind; [apply keeps_emit|intros _; apply P_remember]. Qed.

Lemma kept_edit_saved w text keyboard existingId :
  keeps P
    match existingId with
    | Some (Npos p) =>
        bind (emit (telegram_editMessageText c (Npos p) text keyboard (edit_by_id_ok w)))
          (fun _ => if edit_by_id_ok w then ret tt
                    else bind (forget c)
                           (fun _ => bind (emit (reply text (Some keyboard)))
                                       (fun _ => remember c (sent_message_id w))))
    | _ => bind (emit (reply text (Some keyboard)))
             (fun _ => remember c (sent_message_id w))
    end.
Proof.
  destruct existingId as [[|p]|]; try apply kept_send_new.
  apply keeps_bind; [apply keeps_emit|intros _].
  destruct (edit_by_id_ok w); [apply keeps_ret|].
  apply keeps_bind; [apply P_forget|intros _; apply kept_send_new].
Qed.

Lemma kept_showControls w ctx : chat_id ctx = c -> keeps P (showControls w ctx).
Proof.
  intros Hc. unfold showControls. rewrite Hc. cbv zeta.
  apply keeps_bind; [apply kept_getSettings|intros s].
  apply keeps_bind; [apply kept_controlsKeyboard|intros keyboard].
  apply keeps_bind; [apply keeps_gets|intros existingId].
  destruct (updateType ctx); [apply kept_edit_saved|].
  apply keeps_bind; [apply keeps_emit|intros _].
  destruct (edit_here_ok w); [apply P_remember|apply kept_edit_saved].
Qed.

Lemma kept_session_screens w ctx (t : jsstring) :
  chat_id ctx = c ->
  keeps P (bind (emit (reply t None))
             (fun _ => bind (showControls w ctx) (fun _ => showPrompt))).
Proof.
  intros Hc. apply keeps_bind; [apply keeps_emit|intros _].
  apply keeps_bind; [apply kept_showControls, Hc|intros _; apply kept_showPrompt].
Qed.

Lemma kept_on_setting f w ctx : chat_id ctx = c -> keeps P (on_setting f w ctx).
Proof.
  intros Hc. unfold on_setting. rewrite Hc. cbv zeta.
  apply keeps_bind; [apply keeps_modify, P_ensure|intros _].
  apply keeps_bind; [apply kept_getSettings|intros _].
  apply keeps_bind; [apply P_assign|intros _].
  apply keeps_bind; [apply keeps_emit|intros _].
  apply kept_showControls, Hc.
Qed.

Lemma kept_on_action w ctx data : chat_id ctx = c -> keeps P (on_action w ctx data).
Proof.
  intros Hc. unfold on_action.
  repeat match goal with
    | |- keeps _ (if ?b then _ else _) => destruct b
    end.
  - apply keeps_emit.
  - unfold on_do_start. rewrite Hc.
    apply keeps_bind; [apply keeps_modify, P_reset|intros _].
    apply keeps_bind; [apply keeps_emit|intros _].
    apply kept_session_screens, Hc.
  - unfold on_new_question.
    apply keeps_bind; [apply keeps_emit|intros _; apply keeps_emit].
  - unfold on_open_settings.
    apply keeps_bind; [apply keeps_emit|intros _; apply kept_showControls, Hc].
  - unfold on_back_to_prompt.
    apply keeps_bind; [apply keeps_emit|intros _; apply kept_showPrompt].
  - destruct (match_len data) as [ds|]; [apply kept_on_setting, Hc|].
    repeat match goal with
      | |- keeps _ (if ?b then _ else _) =>
          destruct b; [apply kept_on_setting, Hc|]
      end.
    apply keeps_ret.
Qed.

Lemma kept_answer_twice w userText s history :
  keeps P (answer_twice w c userText s history).
Proof.
  unfold answer_twice.
  apply keeps_bind; [apply keeps_emit|intros _].
  apply keeps_try_catch.
  - apply keeps_bind; [apply keeps_callLLM|intros a1].
    apply keeps_bind; [apply keeps_emit|intros _].
    apply keeps_bind; [apply keeps_emit|intros _].
    apply keeps_bind; [apply keeps_callLLM|intros a2].
    apply keeps_bind; [apply keeps_emit|intros _].
    apply keeps_bind; [apply P_push|intros _].
    apply keeps_bind; [apply P_push|intros _].
    apply kept_showPrompt.
  - apply keeps_bind; [apply keeps_emit|intros _].
    apply keeps_bind; [apply keeps_emit|intros _].
    apply kept_showPrompt.
Qed.

Lemma kept_on_text w ctx : chat_id ctx = c -> keeps P (on_text w ctx).
Proof.
  intros Hc. unfold on_text. rewrite Hc. cbv zeta.
  destruct (trim <$> message_text ctx) as [[|u r]|]; try apply keeps_ret.
  destruct (startsWith (u :: r) (js "/")); [apply keeps_ret|].
  apply keeps_bind; [apply keeps_gets|intros hasDialog].
  apply keeps_bind; [apply keeps_gets|intros hasSettings].
  destruct (negb hasDialog || negb hasSettings); [apply keeps_emit|].
  apply keeps_bind; [apply kept_getSettings|intros s].
  apply keeps_bind; [apply kept_getMessages|intros history].
  apply kept_answer_twice.
Qed.

Lemma kept_handle w e : event_chat e = c -> keeps P (handle w e).
Proof.
  intros Hc. destruct e as [c'|c'|c'|c' data mid|c' text];
    cbn [event_chat] in Hc; subst c'; unfold handle.
  - unfold on_start. cbn [message_ctx chat_id].
    apply keeps_bind; [apply keeps_modify, P_reset|intros _].
    apply kept_session_screens; exact eq_refl.
  - unfold on_controls. cbn [message_ctx chat_id].
    apply keeps_bind; [apply keeps_modify, P_ensure|intros _].
    apply kept_showControls; exact eq_refl.
  - unfold on_reset. cbn [message_ctx chat_id].
    apply keeps_bind; [apply keeps_modify, P_reset|intros _].
    apply kept_session_screens; exact eq_refl.
  - apply kept_on_action; exact eq_refl.
  - apply kept_on_text; exact eq_refl.
Qed.

End HandlerKeeps.

(** A property that every event keeps holds after every run. *)
Lemma run_keeps (P : Store -> Prop) (es : list (World * Event)) (st : Store) :
  (forall w e, keeps P (handle w e)) -> P st -> P (fst (run es st)).
Proof.
  intros Hk. revert st. induction es as [|[w e] es IH]; intros st Hst; [exact Hst|].
  cbn [run]. pose proof (Hk w e st Hst) as H1.
  destruct (handle w e st) as [[r st1] o1]. cbn [fst snd] in H1.
  specialize (IH st1 H1). destruct (run es st1) as [st2 o2]. exact IH.
Qed.

Lemma paired_ensureSession c st :
  sessions_paired st -> sessions_paired (ensureSession c st).
Proof.
  intros H k. unfold ensureSession. cbn [dialogs settingsByChat].
  destruct (decide (c = k)) as [->|Hne].
  - destruct (dialogs st !! k) eqn:Ed; destruct (settingsByChat st !! k) eqn:Es;
      rewrite ?lookup_insert_eq, ?Ed, ?Es; split; eauto.
  - destruct (dialogs st !! c); destruct (settingsByChat st !! c);
      rewrite ?lookup_insert_ne by done; apply H.
Qed.

Lemma paired_resetSession c st :
  sessions_paired st -> sessions_paired (resetSession c st).
Proof.
  intros H. unfold resetSession. apply paired_ensureSession.
  intros k. cbn [dialogs settingsByChat].
  destruct (decide (c = k)) as [->|Hne].
  - rewrite !lookup_delete_eq. split; intros [x Hx]; discriminate.
  - rewrite !lookup_delete_ne by done. apply H.
Qed.

Lemma is_Some_alter {A} (f : A -> A) (c k : Z) (m : gmap Z A) :
  is_Some (alter f c m !! k) <-> is_Some (m !! k).
Proof.
  destruct (decide (c = k)) as [->|Hne].
  - rewrite lookup_alter_eq. destruct (m !! k); split; intros [x Hx]; eauto;
      discriminate.
  - by rewrite lookup_alter_ne.
Qed.

Lemma handle_keeps_paired w e : keeps sessions_paired (handle w e).
Proof.
  apply (kept_handle sessions_paired (event_chat e)); try exact eq_refl.
  - apply paired_ensureSession.
  - apply paired_resetSession.
  - intros m. apply keeps_modify. intros st H k.
    cbn [dialogs settingsByChat]. rewrite is_Some_alter. apply H.
  - intros f. apply keeps_modify. intros st H k.
    cbn [dialogs settingsByChat]. rewrite is_Some_alter. apply H.
  - intros [[|p]|]; unfold remember; try apply keeps_ret.
    apply keeps_modify. intros st H. exact H.
  - apply keeps_modify. intros st H. exact H.
Qed.

(** Whatever events arrive and whatever the outside answers, a chat has a
    history exactly when it has settings. *)
Theorem history_and_settings_exist_together (es : list (World * Event)) (c : Z) :
  is_Some (dialogs (fst (run es empty_store)) !! c)
  <-> is_Some (settingsByChat (fst (run es empty_store)) !! c).
Proof.
  apply (run_keeps sessions_paired es empty_store handle_keeps_paired).
  intros k. cbn [empty_store dialogs settingsByChat]. rewrite !lookup_empty.
  split; intros [x Hx]; discriminate.
Qed.

Lemma system_first_ensureSession c st :
  system_first st -> system_first (ensureSession c st).
Proof.
  intros H k h. unfold ensureSession. cbn [dialogs].
  destruct (dialogs st !! c) eqn:E; [apply H|].
  destruct (decide (c = k)) as [->|Hne].
  - rewrite lookup_insert_eq. intros [= <-]. by eexists.
  - rewrite lookup_insert_ne by done. apply H.
Qed.

Lemma system_first_resetSession c st :
  system_first st -> system_first (resetSession c st).
Proof.
  intros H. unfold resetSession. apply system_first_ensureSession.
  intros k h. cbn [dialogs].
  destruct (decide (c = k)) as [->|Hne].
  - by rewrite lookup_delete_eq.
  - rewrite lookup_delete_ne by done. apply H.
Qed.

Lemma handle_keeps_system_first w e : keeps system_first (handle w e).
Proof.
  apply (kept_handle system_first (event_chat e)); try exact eq_refl.
  - apply system_first_ensureSession.
  - apply system_first_resetSession.
  - intros m. apply keeps_modify. intros st H k h. cbn [dialogs].
    destruct (decide (event_chat e = k)) as [->|Hne].
    + rewrite lookup_alter_eq.
      destruct (dialogs st !! k) as [h0|] eqn:E; [|discriminate].
      intros [= <-]. destruct (H k h0 E) as [rest ->]. by eexists.
    + rewrite lookup_alter_ne by done. apply H.
  - intros f. apply keeps_modify. intros st H. exact H.
  - intros [[|p]|]; unfold remember; try apply keeps_ret.
    apply keeps_modify. intros st H. exact H.
  - apply keeps_modify. intros st H. exact H.
Qed.

(** Whatever events arrive and whatever the outside answers, every history
    that exists starts with the fixed system message. *)
Theorem history_starts_with_system_message (es : list (World * Event)) (c : Z)
    (h : list Message) :
  dialogs (fst (run es empty_store)) !! c = Some h ->
  exists rest, h = system_msg DEFAULT_SYSTEM :: rest.
Proof.
  apply (run_keeps system_first es empty_store handle_keeps_system_first).
  intros k h'. cbn [empty_store dialogs]. by rewrite lookup_empty.
Qed.

Lemma history_starts_with_system_witness :
  exists rest,
    [system_msg DEFAULT_SYSTEM; user_msg (js "hello"); assistant_msg (js "two")]
    = system_msg DEFAULT_SYSTEM :: rest.
Proof.
  apply (history_starts_with_system_message
           [(answering_world, start_command 1);
            (answering_world, text_message 1 (Some (js "hello")))] 1).
  vm_compute. exact eq_refl.
Defined.

(** The handling of an event of one chat leaves the history, the settings
    and the recorded settings message of every other chat as they were. *)
Theorem events_are_local_to_their_chat (w : World) (e : Event) (st : Store)
    (other : Z) :
  other <> event_chat e ->
  conversation other (snd (fst (handle w e st))) = conversation other st.
Proof.
  intros Hne.
  apply (kept_handle (fun st' => conversation other st' = conversation other st)
           (event_chat e)); try exact eq_refl.
  - intros st' H. rewrite <- H.
    by apply ensureSession_other.
  - intros st' H. rewrite <- H. by apply resetSession_other.
  - intros m. apply keeps_modify. intros st' H. rewrite <- H.
    unfold conversation. cbn [dialogs settingsByChat settingsMsgIdByChat].
    by rewrite lookup_alter_ne.
  - intros f. apply keeps_modify. intros st' H. rewrite <- H.
    unfold conversation. cbn [dialogs settingsByChat settingsMsgIdByChat].
    by rewrite lookup_alter_ne.
  - intros [[|p]|]; unfold remember; try apply keeps_ret.
    apply keeps_modify. intros st' H. rewrite <- H.
    unfold conversation. cbn [dialogs settingsByChat settingsMsgIdByChat].
    by rewrite lookup_insert_ne.
  - apply keeps_modify. intros st' H. rewrite <- H.
    unfold conversation. cbn [dialogs settingsByChat settingsMsgIdByChat].
    by rewrite lookup_delete_ne.
Qed.

Lemma events_are_local_witness :
  conversation 2
    (snd (fst (handle answering_world (text_message 1 (Some (js "hello")))
                 (resetSession 1 (resetSession 2 empty_store)))))
  = conversation 2 (resetSession 1 (resetSession 2 empty_store)).
Proof.
  apply (events_are_local_to_their_chat answering_world
           (text_message 1 (Some (js "hello")))
           (resetSession 1 (resetSession 2 empty_store)) 2).
  cbn [event_chat]. lia.
Defined.

(** A text that trims to nothing, in [bot.mjs]. *)
Lemma blank_text_cases (w : World) (chatId : Z) (t : jsstring) (st : Store) :
  trim t = [] ->
  handle w (text_message chatId (Some t)) st = (Returned tt, st, []).
Proof.
  intros H. unfold handle, on_text, message_ctx.
  cbv beta iota zeta delta [chat_id message_text fmap option_fmap option_map].
  rewrite H. exact eq_refl.
Qed.

(** ** Further properties of the text handler *)

(** A text without a session, in [bot.mjs]. *)
Lemma on_text_no_session (w : World) (chatId : Z)
    (text : jsstring) (st : Store) :
  trim text <> [] -> startsWith (trim text) (js "/") = false ->
  dialogs st !! chatId = None \/ settingsByChat st !! chatId = None ->
  handle w (text_message chatId (Some text)) st
  = (Returned tt, st, [reply START_TEXT (Some startKeyboard)]).
Proof.
  intros Hne Hcmd Habs.
  unfold handle, on_text, message_ctx.
  cbv beta iota zeta delta [chat_id message_text fmap option_fmap option_map].
  destruct (trim text) as [|u r] eqn:E; [congruence|].
  rewrite Hcmd.
  cbv beta iota zeta delta [bind gets].
  assert (Hb : negb (bool_decide (is_Some (dialogs st !! chatId)))
               || negb (bool_decide (is_Some (settingsByChat st !! chatId)))
               = true).
  { destruct Habs as [H|H]; rewrite H.
    - rewrite bool_decide_eq_false_2; [exact eq_refl|].
      intros [x Hx]; discriminate.
    - rewrite orb_true_iff. right.
      rewrite bool_decide_eq_false_2; [exact eq_refl|].
      intros [x Hx]; discriminate. }
  rewrite Hb. exact eq_refl.
Qed.

(** A text for a chat without a history or without settings (the process
    was restarted, say) is answered by the start screen alone: no request
    goes out and no session is created. *)
Theorem text_without_session_shows_start (w : World) (chatId : Z)
    (text : jsstring) (st : Store) :
  trim text <> [] -> startsWith (trim text) (js "/") = false ->
  dialogs st !! chatId = None \/ settingsByChat st !! chatId = None ->
  handle w (text_message chatId (Some text)) st
  = (Returned tt, st, [reply START_TEXT (Some startKeyboard)]).
Proof. apply on_text_no_session. Qed.

Lemma text_without_session_witness :
  handle answering_world (text_message 1 (Some (js "hello"))) empty_store
  = (Returned tt, empty_store, [reply START_TEXT (Some startKeyboard)]).
Proof.
  apply (text_without_session_shows_start answering_world 1 (js "hello")
           empty_store).
  - vm_compute. discriminate.
  - vm_compute. exact eq_refl.
  - left. exact eq_refl.
Defined.

(** A text that looks like a command, in [bot.mjs]. *)
Lemma on_text_command (w : World) (chatId : Z)
    (text : jsstring) (st : Store) :
  startsWith (trim text) (js "/") = true ->
  handle w (text_message chatId (Some text)) st = (Returned tt, st, []).
Proof.
  intros Hcmd. unfold handle, on_text, message_ctx.
  cbv beta iota zeta delta [chat_id message_text fmap option_fmap option_map].
  destruct (trim text) as [|u r] eqn:E; [exact eq_refl|].
  rewrite Hcmd. exact eq_refl.
Qed.

(** A text that starts, once trimmed, with a slash is left to the command
    handlers: nothing is sent and nothing changes. *)
Theorem command_like_text_is_ignored (w : World) (chatId : Z)
    (text : jsstring) (st : Store) :
  startsWith (trim text) (js "/") = true ->
  handle w (text_message chatId (Some text)) st = (Returned tt, st, []).
Proof. apply on_text_command. Qed.

Lemma command_like_text_witness :
  handle answering_world (text_message 1 (Some (js " /help")))
    (resetSession 1 empty_store)
  = (Returned tt, resetSession 1 empty_store, []).
Proof.
  apply (command_like_text_is_ignored answering_world 1 (js " /help")
           (resetSession 1 empty_store)).
  vm_compute. exact eq_refl.
Defined.

(** Every case of the text handler, by what it leaves behind. *)
Lemma on_text_cases (w : World) (chatId : Z) (text : option jsstring) (st : Store) :
  snd (fst (handle w (text_message chatId text) st)) = st
  \/ exists t h s c1 c2,
       text = Some t /\ dialogs st !! chatId = Some h
       /\ settingsByChat st !! chatId = Some s
       /\ constrained_response w = Resolved c1
       /\ unrestricted_response w = Resolved c2
       /\ handle w (text_message chatId text) st
          = answer_twice w chatId (trim t) s h st.
Proof.
  destruct text as [t|]; [|left; exact eq_refl].
  destruct (trim t) as [|u r] eqn:E.
  { left. rewrite (blank_text_cases w chatId t st E). exact eq_refl. }
  destruct (startsWith (trim t) (js "/")) eqn:Hcmd.
  { left. by rewrite on_text_command. }
  assert (Hne : trim t <> []) by (rewrite E; discriminate).
  destruct (dialogs st !! chatId) as [h|] eqn:Hd;
    [|left; rewrite on_text_no_session; auto].
  destruct (settingsByChat st !! chatId) as [s|] eqn:Hs;
    [|left; rewrite on_text_no_session; auto].
  rewrite (on_text_answers w chatId t st h s Hne Hcmd Hd Hs).
  destruct (constrained_response w) as [|c1] eqn:H1.
  { left. by rewrite answer_twice_constrained_rejected. }
  destruct (unrestricted_response w) as [|c2] eqn:H2.
  { left. by rewrite (answer_twice_unrestricted_rejected _ _ _ _ _ _ c1). }
  right. exists t, h, s, c1, c2. auto 10.
Qed.

(** A text message never changes a settings object or a recorded settings
    message, and the history of its chat only grows at the end: it stays as
    it is, or gains the user text followed by one assistant message. *)
Theorem text_only_appends_to_history (w : World) (chatId : Z)
    (text : option jsstring) (st : Store) (h : list Message) :
  dialogs st !! chatId = Some h ->
  let st' := snd (fst (handle w (text_message chatId text) st)) in
  settingsByChat st' = settingsByChat st
  /\ settingsMsgIdByChat st' = settingsMsgIdByChat st
  /\ (dialogs st' !! chatId = Some h
      \/ exists t a, text = Some t
           /\ dialogs st' !! chatId
              = Some (h ++ [user_msg (trim t); assistant_msg a])).
Proof.
  intros Hd st'. subst st'.
  destruct (on_text_cases w chatId text st) as [->|(t & h' & s & c1 & c2 & -> & Hd' & Hs & H1 & H2 & ->)].
  - auto.
  - rewrite (answer_twice_success w chatId (trim t) s h' st c1 c2 H1 H2).
    cbn [fst snd settingsByChat settingsMsgIdByChat dialogs].
    split; [exact eq_refl|]. split; [exact eq_refl|].
    right. exists t, (extract c2). split; [exact eq_refl|].
    rewrite (alter_push_twice chatId (dialogs st) h _ _ Hd).
    by rewrite lookup_insert_eq.
Qed.

Lemma text_only_appends_witness :
  let st' := snd (fst (handle answering_world (text_message 1 (Some (js "hello")))
                         (resetSession 1 empty_store))) in
  settingsByChat st' = settingsByChat (resetSession 1 empty_store)
  /\ settingsMsgIdByChat st' = settingsMsgIdByChat (resetSession 1 empty_store)
  /\ (dialogs st' !! 1%Z = Some [system_msg DEFAULT_SYSTEM]
      \/ exists t a, Some (js "hello") = Some t
           /\ dialogs st' !! 1%Z
              = Some ([system_msg DEFAULT_SYSTEM]
                      ++ [user_msg (trim t); assistant_msg a])).
Proof.
  apply (text_only_appends_to_history answering_world 1 (Some (js "hello"))
           (resetSession 1 empty_store) [system_msg DEFAULT_SYSTEM]).
  vm_compute. exact eq_refl.
Defined.

(** ** The settings screen *)

Lemma remember_run chatId id st :
  remember chatId id st = (Returned tt, remembered chatId id st, []).
Proof. destruct id as [[|p]|]; exact eq_refl. Qed.

(** [showControls] outside a button press. *)
Lemma settings_screen_policy_message (w : World) (ctx : Ctx) (st : Store)
    (h : list Message) (s : Settings) :
  updateType ctx = message_update ->
  dialogs st !! chat_id ctx = Some h ->
  settingsByChat st !! chat_id ctx = Some s ->
  let text := controlsText s in
  let keyboard := controlsKeyboardOf s in
  showControls w ctx st =
  match settingsMsgIdByChat st !! chat_id ctx with
  | Some (Npos p) =>
      if edit_by_id_ok w then
        (Returned tt, st,
         [telegram_editMessageText (chat_id ctx) (Npos p) text keyboard true])
      else
        (Returned tt,
         remembered (chat_id ctx) (sent_message_id w) (forgotten (chat_id ctx) st),
         [telegram_editMessageText (chat_id ctx) (Npos p) text keyboard false;
          reply text (Some keyboard)])
  | _ =>
      (Returned tt, remembered (chat_id ctx) (sent_message_id w) st,
       [reply text (Some keyboard)])
  end.
Proof.
  intros Hu Hd Hs text keyboard. subst text keyboard. unfold showControls.
  rewrite Hu.
  cbv beta iota zeta delta
    [bind ret emit gets modify lift getSettings controlsKeyboard forget].
  rewrite !(ensureSession_present _ st h s Hd Hs). rewrite !Hs.
  cbv beta iota zeta delta [default from_option id].
  destruct (settingsMsgIdByChat st !! chat_id ctx) as [[|p]|];
    try (rewrite remember_run; exact eq_refl).
  destruct (edit_by_id_ok w); [exact eq_refl|].
  rewrite remember_run. exact eq_refl.
Qed.


(** Outside a button press, [showControls] edits the recorded settings
    message when there is one and the edit goes through, and nothing else
    is sent; when the edit is refused it drops the stale id, sends a new
    message and records the id of that one, if it has one; when nothing is
    recorded it sends a new message and records its id. *)
Theorem settings_screen_after_a_command (w : World) (ctx : Ctx) (st : Store)
    (h : list Message) (s : Settings) :
  updateType ctx = message_update ->
  dialogs st !! chat_id ctx = Some h ->
  settingsByChat st !! chat_id ctx = Some s ->
  let text := controlsText s in
  let keyboard := controlsKeyboardOf s in
  showControls w ctx st =
  match settingsMsgIdByChat st !! chat_id ctx with
  | Some (Npos p) =>
      if edit_by_id_ok w then
        (Returned tt, st,
         [telegram_editMessageText (chat_id ctx) (Npos p) text keyboard true])
      else
        (Returned tt,
         remembered (chat_id ctx) (sent_message_id w) (forgotten (chat_id ctx) st),
         [telegram_editMessageText (chat_id ctx) (Npos p) text keyboard false;
          reply text (Some keyboard)])
  | _ =>
      (Returned tt, remembered (chat_id ctx) (sent_message_id w) st,
       [reply text (Some keyboard)])
  end.
Proof. apply settings_screen_policy_message. Qed.

Lemma settings_screen_after_a_command_witness :
  showControls answering_world (message_ctx 1 (Some (js "/controls")))
    (resetSession 1 empty_store)
  = (Returned tt, remembered 1 (Some 7) (resetSession 1 empty_store),
     [reply (controlsText newDefaultSettings)
        (Some (controlsKeyboardOf newDefaultSettings))]).
Proof.
  apply (settings_screen_after_a_command answering_world
           (message_ctx 1 (Some (js "/controls"))) (resetSession 1 empty_store)
           [system_msg DEFAULT_SYSTEM] newDefaultSettings).
  - exact eq_refl.
  - vm_compute. exact eq_refl.
  - vm_compute. exact eq_refl.
Defined.

(** On a button press whose message can be edited, [showControls] edits
    that message and sends nothing; the message becomes the recorded
    settings message when its id is one that [if (id)] accepts. *)
Theorem settings_screen_is_edited_in_place (w : World) (ctx : Ctx) (st : Store)
    (h : list Message) (s : Settings) :
  updateType ctx = callback_query -> edit_here_ok w = true ->
  dialogs st !! chat_id ctx = Some h ->
  settingsByChat st !! chat_id ctx = Some s ->
  showControls w ctx st
  = (Returned tt, remembered (chat_id ctx) (callback_message_id ctx) st,
     [editMessageText (controlsText s) (controlsKeyboardOf s) true]).
Proof.
  intros Hu Hok Hd Hs. unfold showControls. rewrite Hu, Hok.
  cbv beta iota zeta delta
    [bind ret emit gets modify lift getSettings controlsKeyboard forget].
  rewrite !(ensureSession_present _ st h s Hd Hs). rewrite !Hs.
  cbv beta iota zeta delta [default from_option id].
  rewrite remember_run. exact eq_refl.
Qed.

Lemma settings_screen_is_edited_witness :
  showControls answering_world (callback_ctx 1 (Some 9))
    (resetSession 1 empty_store)
  = (Returned tt, remembered 1 (Some 9) (resetSession 1 empty_store),
     [editMessageText (controlsText newDefaultSettings)
        (controlsKeyboardOf newDefaultSettings) true]).
Proof.
  apply (settings_screen_is_edited_in_place answering_world
           (callback_ctx 1 (Some 9)) (resetSession 1 empty_store)
           [system_msg DEFAULT_SYSTEM] newDefaultSettings).
  - exact eq_refl.
  - exact eq_refl.
  - vm_compute. exact eq_refl.
  - vm_compute. exact eq_refl.
Defined.

(** [showControls] never sends more than one new message. *)
Theorem settings_screen_sends_at_most_one_message (w : World) (ctx : Ctx)
    (st : Store) :
  (length (List.filter (fun o => match o with reply _ _ => true | _ => false end)
             (snd (showControls w ctx st))) <= 1)%nat.
Proof.
  unfold showControls.
  cbv beta iota zeta delta
    [bind ret emit gets modify lift getSettings controlsKeyboard forget].
  destruct (updateType ctx); destruct (edit_here_ok w);
    try match goal with
    | |- context [settingsMsgIdByChat ?x !! chat_id ctx] =>
        destruct (settingsMsgIdByChat x !! chat_id ctx) as [[|p]|]
    end;
    destruct (edit_by_id_ok w);
    rewrite ?remember_run; cbn [snd app List.filter length]; lia.
Qed.

(** ** Commands and navigation *)

Lemma resetSession_conversation chatId st :
  conversation chatId (resetSession chatId st) = default_conversation.
Proof.
  unfold conversation, resetSession, ensureSession; simpl.
  rewrite ?lookup_delete_eq; simpl.
  rewrite ?lookup_insert_eq, ?lookup_delete_eq. exact eq_refl.
Qed.

Lemma resetSession_lookups chatId st :
  dialogs (resetSession chatId st) !! chatId = Some [system_msg DEFAULT_SYSTEM]
  /\ settingsByChat (resetSession chatId st) !! chatId = Some newDefaultSettings
  /\ settingsMsgIdByChat (resetSession chatId st) !! chatId = None.
Proof.
  pose proof (resetSession_conversation chatId st) as Hc.
  unfold conversation, default_conversation in Hc.
  repeat split; congruence.
Qed.

Lemma remembered_conversation chatId id st :
  conversation chatId (remembered chatId id st)
  = (dialogs st !! chatId, settingsByChat st !! chatId,
     match id with
     | Some (Npos p) => Some (Npos p)
     | _ => settingsMsgIdByChat st !! chatId
     end).
Proof.
  destruct id as [[|p]|]; try exact eq_refl.
  unfold conversation, remembered. cbn [dialogs settingsByChat settingsMsgIdByChat].
  by rewrite lookup_insert_eq.
Qed.

(** What [/start] and [/reset] do after their own first line: the session is
    the default one, the settings screen goes out as a new message, since
    the reset has dropped any recorded one, and then the prompt screen. *)
Lemma reset_then_screens (w : World) (chatId : Z) (text : option jsstring)
    (greeting : jsstring) (st : Store) :
  bind (modify (resetSession chatId))
    (fun _ => bind (emit (reply greeting None))
       (fun _ => bind (showControls w (message_ctx chatId text))
          (fun _ => showPrompt))) st
  = (Returned tt,
     remembered chatId (sent_message_id w) (resetSession chatId st),
     [ reply greeting None;
       reply (controlsText newDefaultSettings)
         (Some (controlsKeyboardOf newDefaultSettings));
       reply PROMPT_TEXT (Some afterAnswerKeyboard) ]).
Proof.
  destruct (resetSession_lookups chatId st) as (Hd & Hs & Hm).
  cbv beta iota zeta delta [bind modify emit showPrompt].
  rewrite (settings_screen_policy_message w (message_ctx chatId text)
             (resetSession chatId st) _ _ eq_refl Hd Hs).
  cbn [message_ctx chat_id]. rewrite Hm. exact eq_refl.
Qed.

(** [/start] and [/reset], whatever the chat held before: the conversation
    is the default one again, with the new settings message as the recorded
    one if it has an id; three messages go out: the greeting, the settings
    screen of the default settings as a new message, and the prompt screen. *)
Theorem start_and_reset_begin_a_default_session (w : World) (chatId : Z)
    (st : Store) :
  exists greeting confirmation,
    let screens := fun first =>
      [ reply first None;
        reply (controlsText newDefaultSettings)
          (Some (controlsKeyboardOf newDefaultSettings));
        reply PROMPT_TEXT (Some afterAnswerKeyboard) ] in
    let after := remembered chatId (sent_message_id w) (resetSession chatId st) in
    handle w (start_command chatId) st = (Returned tt, after, screens greeting)
    /\ handle w (reset_command chatId) st = (Returned tt, after, screens confirmation)
    /\ conversation chatId after
       = (Some [system_msg DEFAULT_SYSTEM], Some newDefaultSettings,
          match sent_message_id w with
          | Some (Npos p) => Some (Npos p)
          | _ => None
          end).
Proof.
  eexists _, _. cbv zeta. split; [|split].
  - unfold handle, on_start. cbn [message_ctx chat_id]. apply reset_then_screens.
  - unfold handle, on_reset. cbn [message_ctx chat_id]. apply reset_then_screens.
  - rewrite remembered_conversation.
    destruct (resetSession_lookups chatId st) as (-> & -> & ->). exact eq_refl.
Qed.

(** [/controls] in a chat that nothing is known about creates the default
    session and sends the settings screen as a new message. *)
Theorem controls_creates_a_session (w : World) (chatId : Z) (st : Store) :
  conversation chatId st = (None, None, None) ->
  handle w (controls_command chatId) st
  = (Returned tt,
     remembered chatId (sent_message_id w) (ensureSession chatId st),
     [reply (controlsText newDefaultSettings)
        (Some (controlsKeyboardOf newDefaultSettings))])
  /\ conversation chatId (ensureSession chatId st) = default_conversation.
Proof.
  intros Hc. unfold conversation in Hc. injection Hc as Hd Hs Hm.
  assert (Hd' : dialogs (ensureSession chatId st) !! chatId
                = Some [system_msg DEFAULT_SYSTEM]).
  { unfold ensureSession. cbn [dialogs]. rewrite Hd. apply lookup_insert_eq. }
  assert (Hs' : settingsByChat (ensureSession chatId st) !! chatId
                = Some newDefaultSettings).
  { unfold ensureSession. cbn [settingsByChat]. rewrite Hs. apply lookup_insert_eq. }
  split.
  - unfold handle, on_controls. cbn [message_ctx chat_id].
    cbv beta iota zeta delta [bind modify].
    rewrite (settings_screen_policy_message w
               (message_ctx chatId (Some (js "/controls")))
               (ensureSession chatId st) _ _ eq_refl Hd' Hs').
    cbn [message_ctx chat_id]. cbn [ensureSession settingsMsgIdByChat].
    rewrite Hm. exact eq_refl.
  - unfold conversation. rewrite Hd', Hs'. cbn [ensureSession settingsMsgIdByChat].
    by rewrite Hm.
Qed.

Lemma controls_creates_a_session_witness :
  handle answering_world (controls_command 1) empty_store
  = (Returned tt,
     remembered 1 (sent_message_id answering_world) (ensureSession 1 empty_store),
     [reply (controlsText newDefaultSettings)
        (Some (controlsKeyboardOf newDefaultSettings))])
  /\ conversation 1 (ensureSession 1 empty_store) = default_conversation.
Proof.
  apply (controls_creates_a_session answering_world 1 empty_store).
  exact eq_refl.
Defined.

(** The label button, "new question" and "back" only acknowledge the press
    and, for the last two, send one message; the store is not touched. *)
Theorem navigation_presses_leave_the_store (w : World) (chatId : Z)
    (messageId : option N) (st : Store) :
  handle w (button_press chatId (js "noop") messageId) st
  = (Returned tt, st, [answerCbQuery (js " ")])
  /\ (exists invitation,
        handle w (button_press chatId (js "new_question") messageId) st
        = (Returned tt, st, [answerCbQuery OK; reply invitation None]))
  /\ handle w (button_press chatId (js "back_to_prompt") messageId) st
     = (Returned tt, st,
        [answerCbQuery OK; reply PROMPT_TEXT (Some afterAnswerKeyboard)]).
Proof.
  unfold handle, on_action. split; [|split; [eexists|]]; decide_tests; exact eq_refl.
Qed.

(** ** Callback data *)

(** Callback data that equals no string trigger and has no part of the form
    [len_] followed by a digit is handled by nobody. *)
Theorem unmatched_callback_is_ignored (w : World) (chatId : Z)
    (data : jsstring) (messageId : option N) (st : Store) :
  ~ In data string_triggers -> match_len data = None ->
  handle w (button_press chatId data messageId) st = (Returned tt, st, []).
Proof.
  intros Hnot Hlen. unfold handle, on_action. rewrite Hlen.
  assert (Hf : forall t, In t string_triggers -> str_eqb data t = false).
  { intros t Ht. apply bool_decide_eq_false_2. intros ->. exact (Hnot Ht). }
  rewrite !Hf by (cbv [string_triggers In]; tauto).
  exact eq_refl.
Qed.

Lemma unmatched_callback_witness :
  handle answering_world (button_press 1 (js "len_x") None) empty_store
  = (Returned tt, empty_store, []).
Proof.
  apply (unmatched_callback_is_ignored answering_world 1 (js "len_x") None
           empty_store).
  - vm_compute. intuition discriminate.
  - vm_compute. exact eq_refl.
Defined.






(** ** Sizes *)

(** What [safeTelegramText] returns is never longer than 3500 code units
    and the marker, 3513 in all. *)
Lemma safeTelegramText_length (text : jsstring) :
  (length (safeTelegramText text) <= 3513)%nat.
Proof.
  unfold safeTelegramText.
  destruct (3500 <? length text)%nat eqn:E.
  - rewrite length_app, length_take.
    replace (length TRUNCATION_MARKER) with 13%nat by (vm_compute; exact eq_refl).
    lia.
  - apply Nat.ltb_ge in E. lia.
Qed.

(** The unrestricted reply, label included, stays within the 4096 code
    units that Telegram accepts in one message, whatever the model wrote. *)
Theorem unrestricted_reply_fits_a_message (answer : jsstring) :
  (length (unrestrictedReply answer) <= 4096)%nat.
Proof.
  unfold unrestrictedReply.
  replace (show_param (p_temperature UNRESTRICTED_PARAMS)) with (js "0.7")
    by (vm_compute; exact eq_refl).
  replace (show_param (p_max_tokens UNRESTRICTED_PARAMS)) with (js "800")
    by (vm_compute; exact eq_refl).
  pose proof (safeTelegramText_length answer) as H.
  rewrite !length_app.
  replace (length (js "🟦 Без ограничений")) with 18%nat by (vm_compute; exact eq_refl).
  replace (length (js "temp: ")) with 6%nat by (vm_compute; exact eq_refl).
  replace (length (js "0.7")) with 3%nat by (vm_compute; exact eq_refl).
  replace (length (js ", max_tokens: ")) with 14%nat by (vm_compute; exact eq_refl).
  replace (length (js "800")) with 3%nat by (vm_compute; exact eq_refl).
  replace (length LF) with 1%nat by exact eq_refl.
  lia.
Qed.

(** The number of words asked for never exceeds 120, and it is 120 as soon
    as the token budget is 160 or more; in particular it is 48, 96, 120 and
    120 for the four budgets of the keyboard. *)
Theorem length_directive_is_capped (s : Settings) :
  (lengthWords s <= 120)%Z
  /\ ((160 <= max_tokens s)%Q -> lengthWords s = 120%Z)
  /\ List.map (fun n => lengthWords (set_max_tokens (num n) s))
       [64; 128; 256; 512]%Z
     = [48; 96; 120; 120]%Z.
Proof.
  split; [apply Z.le_min_l|]. split; [|exact eq_refl].
  intros H. unfold lengthWords. apply Z.min_l.
  destruct (Math_round_nearest (max_tokens s * (75 # 100))%Q) as [_ Hlt].
  assert (Hq : (inject_Z 119 + (1 # 2) < inject_Z (Math_round (max_tokens s * (75 # 100))) + (1 # 2))%Q).
  { eapply Qle_lt_trans; [|exact Hlt].
    change (inject_Z 119) with (119 # 1). lra. }
  assert (Hz : (inject_Z 119 < inject_Z (Math_round (max_tokens s * (75 # 100))))%Q) by lra.
  rewrite <- Zlt_Qlt in Hz. lia.
Qed.

Lemma length_directive_is_capped_witness :
  (160 <= max_tokens (set_max_tokens (num 200) newDefaultSettings))%Q
  /\ lengthWords (set_max_tokens (num 200) newDefaultSettings) = 120%Z.
Proof.
  assert (H : (160 <= max_tokens (set_max_tokens (num 200) newDefaultSettings))%Q)
    by (vm_compute; discriminate).
  split; [exact H|].
  apply (proj1 (proj2 (length_directive_is_capped
                         (set_max_tokens (num 200) newDefaultSettings)))).
  exact H.
Defined.

(** ** The earlier bot *)

(** One text message through the earlier bot. *)
Lemma legacy_text_step (answer : Response) (chatId : Z) (text : jsstring)
    (d : gmap Z (list Message)) :
  trim text <> [] ->
  let before := default [system_msg Legacy.SYSTEM] (d !! chatId) in
  let asked := before ++ [user_msg (trim text)] in
  Legacy.on_text answer chatId (Some text) d
  = match answer with
    | Rejected =>
        (Returned tt, <[chatId := asked]> d,
         [ sendChatAction TYPING; completions_create (Legacy.request asked);
           console_error; reply APOLOGY_TEXT None ])
    | Resolved content =>
        (Returned tt,
         <[chatId := asked ++ [assistant_msg (extract content)]]> d,
         [ sendChatAction TYPING; completions_create (Legacy.request asked);
           reply (safeTelegramText (extract content)) None ])
    end.
Proof.
  intros Hne before asked. subst before asked.
  unfold Legacy.on_text.
  cbv beta iota zeta delta [fmap option_fmap option_map].
  destruct (trim text) as [|u r] eqn:E; [congruence|].
  cbv beta iota zeta delta
    [bind ret emit throw modify lift try_catch Legacy.getMessages Legacy.push].
  destruct (d !! chatId) as [h|] eqn:Hd; cbv beta iota zeta delta [default from_option id].
  - assert (H1 : alter (fun h0 => h0 ++ [user_msg (u :: r)]) chatId d
                 = <[chatId := h ++ [user_msg (u :: r)]]> d)
      by exact (alter_present (fun h0 => h0 ++ [user_msg (u :: r)]) chatId d h Hd).
    destruct answer as [|content].
    + rewrite H1. exact eq_refl.
    + rewrite H1.
      rewrite (alter_present (fun h0 => h0 ++ [assistant_msg (extract content)])
                 chatId _ (h ++ [user_msg (u :: r)]))
        by apply lookup_insert_eq.
      rewrite insert_insert_eq. exact eq_refl.
  - assert (H1 : alter (fun h0 => h0 ++ [user_msg (u :: r)]) chatId
                   (<[chatId := [system_msg Legacy.SYSTEM]]> d)
                 = <[chatId := [system_msg Legacy.SYSTEM] ++ [user_msg (u :: r)]]> d).
    { rewrite (alter_present (fun h0 => h0 ++ [user_msg (u :: r)])
                 chatId _ [system_msg Legacy.SYSTEM])
        by apply lookup_insert_eq.
      by rewrite insert_insert_eq. }
    destruct answer as [|content].
    + rewrite H1. exact eq_refl.
    + rewrite H1.
      rewrite (alter_present (fun h0 => h0 ++ [assistant_msg (extract content)])
                 chatId _ ([system_msg Legacy.SYSTEM] ++ [user_msg (u :: r)]))
        by apply lookup_insert_eq.
      rewrite insert_insert_eq. exact eq_refl.
Qed.


(** A text message in the earlier bot.  The history of the chat, or the
    system message alone for a chat without one, gets the trimmed text
    appended before the request is made, and the request carries exactly
    that list.  If the request is rejected the user message stays in the
    history and the apology is sent; if it resolves the answer is appended
    too and sent cut at 3500 code units. *)
Theorem legacy_text_exchange (answer : Response) (chatId : Z) (text : jsstring)
    (d : gmap Z (list Message)) :
  trim text <> [] ->
  let before := default [system_msg Legacy.SYSTEM] (d !! chatId) in
  let asked := before ++ [user_msg (trim text)] in
  Legacy.on_text answer chatId (Some text) d
  = match answer with
    | Rejected =>
        (Returned tt, <[chatId := asked]> d,
         [ sendChatAction TYPING; completions_create (Legacy.request asked);
           console_error; reply APOLOGY_TEXT None ])
    | Resolved content =>
        (Returned tt,
         <[chatId := asked ++ [assistant_msg (extract content)]]> d,
         [ sendChatAction TYPING; completions_create (Legacy.request asked);
           reply (safeTelegramText (extract content)) None ])
    end.
Proof. apply legacy_text_step. Qed.

Lemma legacy_text_exchange_witness :
  let asked := default [system_msg Legacy.SYSTEM] ((∅ : gmap Z (list Message)) !! 1%Z)
               ++ [user_msg (trim (js "hello"))] in
  Legacy.on_text Rejected 1 (Some (js "hello")) ∅
  = (Returned tt, <[1%Z := asked]> ∅,
     [ sendChatAction TYPING; completions_create (Legacy.request asked);
       console_error; reply APOLOGY_TEXT None ]).
Proof.
  apply (legacy_text_exchange Rejected 1 (js "hello") ∅).
  vm_compute. discriminate.
Defined.

(** After [/reset] or [/start] in the earlier bot the next request carries
    the system message and the new text only, whatever was said before. *)
Theorem legacy_reset_forgets_the_history (answer : Response) (chatId : Z)
    (text : jsstring) (d : gmap Z (list Message)) :
  trim text <> [] ->
  requests (snd (bind (Legacy.on_reset chatId)
                   (fun _ => Legacy.on_text answer chatId (Some text)) d))
  = [Legacy.request [system_msg Legacy.SYSTEM; user_msg (trim text)]]
  /\ requests (snd (bind (Legacy.on_start chatId)
                      (fun _ => Legacy.on_text answer chatId (Some text)) d))
     = [Legacy.request [system_msg Legacy.SYSTEM; user_msg (trim text)]].
Proof.
  intros Hne.
  pose proof (legacy_text_step answer chatId text (delete chatId d) Hne) as H.
  rewrite lookup_delete_eq in H. cbv beta iota zeta delta [default from_option id] in H.
  split.
  - unfold Legacy.on_reset. cbv beta iota zeta delta [bind modify emit].
    rewrite H. destruct answer; exact eq_refl.
  - unfold Legacy.on_start. cbv beta iota zeta delta [bind modify emit].
    rewrite H. destruct answer; exact eq_refl.
Qed.

Lemma legacy_reset_forgets_witness :
  requests (snd (bind (Legacy.on_reset 1)
                   (fun _ => Legacy.on_text Rejected 1 (Some (js "again")))
                   (<[1%Z := [system_msg Legacy.SYSTEM; user_msg (js "old")]]> ∅)))
  = [Legacy.request [system_msg Legacy.SYSTEM; user_msg (trim (js "again"))]]
  /\ requests (snd (bind (Legacy.on_start 1)
                      (fun _ => Legacy.on_text Rejected 1 (Some (js "again")))
                      (<[1%Z := [system_msg Legacy.SYSTEM; user_msg (js "old")]]> ∅)))
     = [Legacy.request [system_msg Legacy.SYSTEM; user_msg (trim (js "again"))]].
Proof.
  apply (legacy_reset_forgets_the_history Rejected 1 (js "again")
           (<[1%Z := [system_msg Legacy.SYSTEM; user_msg (js "old")]]> ∅)).
  vm_compute. discriminate.
Defined.

(** ** Requests to the model *)
















(** ** Keyboards and triggers *)

(** The settings only change the captions of the settings keyboard, never
    the callback data under them. *)
Lemma controlsKeyboard_data (s : Settings) :
  List.map (List.map callback_data) (controlsKeyboardOf s)
  = List.map (List.map callback_data) (controlsKeyboardOf newDefaultSettings).
Proof. exact eq_refl. Qed.

(** Every button of every keyboard the program draws, under any settings,
    is answered: its callback data is a string trigger or has a match for
    the length pattern. *)
Theorem every_drawn_button_has_a_handler (s : Settings) (data : jsstring) :
  In data (List.map callback_data
             (concat (controlsKeyboardOf s ++ afterAnswerKeyboard ++ startKeyboard))) ->
  In data string_triggers \/ exists ds, match_len data = Some ds.
Proof.
  rewrite concat_map, List.map_app, controlsKeyboard_data.
  rewrite <- List.map_app, <- concat_map.
  change (In data drawn_callback_data -> In data string_triggers \/ exists ds, match_len data = Some ds).
  let v := eval vm_compute in drawn_callback_data in
  replace drawn_callback_data with v by (vm_compute; exact eq_refl).
  intros H.
  repeat (destruct H as [<-|H];
          [first [ left; vm_compute; tauto
                 | right; eexists; vm_compute; exact eq_refl ]|]).
  destruct H.
Qed.

Lemma every_drawn_button_witness :
  In (js "len_256") string_triggers \/ exists ds, match_len (js "len_256") = Some ds.
Proof.
  apply (every_drawn_button_has_a_handler newDefaultSettings (js "len_256")).
  vm_compute. tauto.
Defined.
